(** * WebTimelapse: capture scheduler and frame assembly pipeline

    A shallow embedding of [main.py]: the interval scheduler that drives a
    headless browser ([main], [capture_once], [fullpage_screenshot]) and the
    rename / encode / restore pipeline ([maybe_build_video]).

    Conventions of the embedding.
    - Python integers are [Z].  Instants ([datetime.now()]) are [Z]
      microseconds, the resolution of [datetime]; durations handed to
      [time.sleep] are [Z] microseconds too, so [elapsed] and
      [interval - elapsed] are exact where Python goes through a float.
      The quotient [duration / interval] is the binary64 float Python
      computes ([true_divide]), with its two errors.
    - An exception is either an instance of [Exception] or a
      [KeyboardInterrupt]; [except Exception] catches the first kind only,
      a bare [except:] catches both.
    - The browser, the clock, the PATH lookup and the encoder process are
      an external world [W] behind the interface [World]; the directory
      tree is a finite map from path strings to files; every call into the
      world is recorded in the trace a computation returns. *)

From Stdlib Require Import ZArith Lia Ascii String DecimalString DecimalN.
From Stdlib Require Import SpecFloat.
From stdpp Require Import gmap strings list fin_maps sorting.

Open Scope string_scope.
Open Scope list_scope.
Open Scope Z_scope.

(** ** Text: what the f-strings and [os.path] build *)

Module Text.

(** [str(n)] for an integer. *)
Definition str (n : Z) : string := NilZero.string_of_int (Z.to_int n).

(** Decimal digits of a natural number, no sign, no padding. *)
Definition digits (n : N) : string := NilEmpty.string_of_uint (N.to_uint n).

Fixpoint zeros (k : nat) : string :=
  match k with
  | O => ""
  | S k' => String "0"%char (zeros k')
  end.

(** Left padding with ['0'] up to [width] characters. *)
Definition zfill (width : nat) (s : string) : string :=
  zeros (width - String.length s) +:+ s.

(** The format specification [06d]: sign-aware zero padding to six
    characters; longer numbers are printed in full. *)
Definition fmt_06d (i : Z) : string :=
  if i <? 0 then String "-"%char (zfill 5 (digits (Z.abs_N i)))
  else zfill 6 (digits (Z.abs_N i)).

Definition starts_with (p s : string) : bool := String.prefix p s.

Fixpoint strip_prefix (p s : string) : option string :=
  match p, s with
  | EmptyString, _ => Some s
  | String a p', String b s' =>
      if Ascii.eqb a b then strip_prefix p' s' else None
  | String _ _, EmptyString => None
  end.

Definition ends_with (q s : string) : bool :=
  let n := String.length s in
  let k := String.length q in
  (k <=? n)%nat && String.eqb (String.substring (n - k) k s) q.

Fixpoint contains_char (c : Ascii.ascii) (s : string) : bool :=
  match s with
  | EmptyString => false
  | String a s' => Ascii.eqb a c || contains_char c s'
  end.

(** [posixpath.join(a, b)]. *)
Definition os_path_join (a b : string) : string :=
  if starts_with "/" b then b
  else if String.eqb a "" || ends_with "/" a then a +:+ b
  else a +:+ "/" +:+ b.

(** The directory part [os_path_join] puts in front of a relative name. *)
Definition dir_prefix (a : string) : string :=
  if String.eqb a "" || ends_with "/" a then a else a +:+ "/".

(** Reading back a run of decimal digits (leading zeros allowed). *)
Definition parse_dec (s : string) : option N :=
  match s with
  | EmptyString => None
  | _ => option_map N.of_uint (NilEmpty.uint_of_string s)
  end.

(** The part of [s] before its first [c], and the part after it. *)
Fixpoint split_at (c : Ascii.ascii) (s : string) : option (string * string) :=
  match s with
  | EmptyString => None
  | String a s' =>
      if Ascii.eqb a c then Some (EmptyString, s')
      else match split_at c s' with
           | Some (l, r) => Some (String a l, r)
           | None => None
           end
  end.

Definition is_digit (c : Ascii.ascii) : bool :=
  let n := Ascii.nat_of_ascii c in (48 <=? n)%nat && (n <=? 57)%nat.

Fixpoint all_digits (s : string) : bool :=
  match s with
  | EmptyString => true
  | String a s' => is_digit a && all_digits s'
  end.

End Text.

(** ** Python control flow: results, exceptions, traces *)

Module Py.

(** What a [raise] carries.  [Exception] stands for every instance of
    [Exception] (WebDriverException, OSError, ValueError, ...), with the
    text [print] shows for it; [KeyboardInterrupt] derives from
    [BaseException] only. *)
Inductive exn : Type :=
| Exception (detail : string)
| KeyboardInterrupt.

Inductive result (A : Type) : Type :=
| Ok (a : A)
| Raise (e : exn).

Arguments Ok {A} a.
Arguments Raise {A} e.

Definition is_ok {A} (r : result A) : bool :=
  match r with Ok _ => true | Raise _ => false end.

End Py.

Export Py.

(** ** The frame store and the outside world *)

Record file : Type := File { mtime : Z; content : string }.

(** A browser session. *)
Definition handle : Type := nat.

(** Lines written to standard output, one constructor per [print]. *)
Inductive message : Type :=
| MsgUrl (url : string)
| MsgOutputFolder (out : string)
| MsgPlan (interval nshots : Z) (fullpage : bool)
| MsgViewport (width height load_wait : Z)
| MsgVideoPlan (fps : Z) (video : string)
| MsgCapturing (k nshots : Z) (img_name : string)
| MsgDone
| MsgError (detail : string)
| MsgFinished (nshots total : Z)
| MsgInterrupted
| MsgNoFfmpeg
| MsgInstallHint
| MsgManualCommand (command : string)
| MsgNoFrames
| MsgBuilding
| MsgSaved (path : string)
| MsgFfmpegFailed (stderr : string).

(** One entry per call that leaves the program, with what came back. *)
Inductive event : Type :=
| EvPrint (m : message)
| EvMakedirs (path : string) (r : result unit)
| EvNow (t : Z)
| EvSleep (us : Z) (r : result unit)
| EvChrome (width height : Z) (r : result handle)
| EvSetPageLoadTimeout (d : handle) (secs : Z) (r : result unit)
| EvGet (d : handle) (url : string) (r : result unit)
| EvExecuteScript (d : handle) (js : string) (r : result (option Z))
| EvGetWindowSize (d : handle) (r : result Z)
| EvSetWindowSize (d : handle) (w h : Z) (r : result unit)
| EvSaveScreenshot (d : handle) (path : string) (r : result bool)
| EvQuit (d : handle) (r : result unit)
| EvWhich (prog : string) (found : bool)
| EvGlob (before_star after_star : string) (found : list string)
| EvGetmtime (path : string) (r : result Z)
| EvRename (src dst : string) (r : result unit)
| EvRun (cmd : list string) (r : result (Z * string)).

(** The capabilities [main.py] consumes.  Each operation takes the world
    and returns the next one; an operation that can raise returns a
    [result].
    - [clock_strftime] is [strftime("%Y%m%d-%H%M%S")] of an instant;
    - [chrome_execute_script] gives the script's value as [int(..)] reads
      it, [None] when it is a value [int] rejects;
    - [chrome_window_width] is [get_window_size()["width"]];
    - [chrome_screenshot] yields the PNG written at the path, or [None]
      when Selenium meets an [IOError] and answers [False];
    - [scandir_order] is the order in which the directory hands out its
      entries to [glob];
    - [encoder_run] is [subprocess.run] of the encoder: exit status,
      captured stderr, and what the process did to the files. *)
Class World (W : Type) : Type := {
  os_makedirs_ext : string -> W -> result unit * W;
  clock_now : W -> Z * W;
  clock_strftime : Z -> string;
  clock_sleep : Z -> W -> result unit * W;
  chrome_start : Z -> Z -> W -> result handle * W;
  chrome_set_page_load_timeout : handle -> Z -> W -> result unit * W;
  chrome_get : handle -> string -> W -> result unit * W;
  chrome_execute_script : handle -> string -> W -> result (option Z) * W;
  chrome_window_width : handle -> W -> result Z * W;
  chrome_set_window_size : handle -> Z -> Z -> W -> result unit * W;
  chrome_screenshot : handle -> W -> result (option file) * W;
  chrome_quit : handle -> W -> result unit * W;
  path_which : string -> W -> bool;
  scandir_order : list string -> list string;
  encoder_run :
    list string -> gmap string file -> W ->
    result (Z * string) * gmap string file * W
}.

Record state (W : Type) : Type := State { ext : W; fs : gmap string file }.

Arguments State {W} ext fs.
Arguments ext {W} s.
Arguments fs {W} s.

(** A computation: from a state to a result, the next state and the
    events emitted on the way. *)
Definition M (W A : Type) : Type := state W -> result A * state W * list event.

Definition ret {W A} (a : A) : M W A := fun s => (Ok a, s, []).

Definition bind {W A B} (m : M W A) (k : A -> M W B) : M W B :=
  fun s =>
    match m s with
    | (Ok a, s1, t1) => let '(r, s2, t2) := k a s1 in (r, s2, t1 ++ t2)
    | (Raise e, s1, t1) => (Raise e, s1, t1)
    end.

Definition raise {W A} (e : exn) : M W A := fun s => (Raise e, s, []).

(** A step of pure Python that returns or raises. *)
Definition lift {W A} (r : result A) : M W A := fun s => (r, s, []).

Notation "x <- m ;; k" := (bind m (fun x => k))
  (at level 100, m at next level, right associativity).
Notation "m ;;; k" := (bind m (fun _ => k))
  (at level 100, right associativity).

(** [try: body  except Exception as e: handler e]. *)
Definition try_except {W A} (body : M W A) (handler : string -> M W A) : M W A :=
  fun s =>
    match body s with
    | (Raise (Exception detail), s1, t1) =>
        let '(r, s2, t2) := handler detail s1 in (r, s2, t1 ++ t2)
    | other => other
    end.

(** [try: body  except: handler], the bare clause. *)
Definition try_except_all {W A} (body : M W A) (handler : M W A) : M W A :=
  fun s =>
    match body s with
    | (Raise _, s1, t1) => let '(r, s2, t2) := handler s1 in (r, s2, t1 ++ t2)
    | other => other
    end.

(** [try: body  finally: cleanup]: the cleanup runs on every exit of the
    body; an exception of the cleanup replaces the pending outcome. *)
Definition try_finally {W A} (body : M W A) (cleanup : M W unit) : M W A :=
  fun s =>
    let '(r, s1, t1) := body s in
    match cleanup s1 with
    | (Ok _, s2, t2) => (r, s2, t1 ++ t2)
    | (Raise e, s2, t2) => (Raise e, s2, t1 ++ t2)
    end.

(** [for x in xs: body x]. *)
Fixpoint for_each {W A} (xs : list A) (body : A -> M W unit) : M W unit :=
  match xs with
  | [] => ret tt
  | x :: xs' => body x ;;; for_each xs' body
  end.

(** [range(n)]. *)
Definition range (n : Z) : list Z := Z.of_nat <$> seq 0 (Z.to_nat n).

Definition trace_of {W A} (o : result A * state W * list event) : list event :=
  snd o.
Definition result_of {W A} (o : result A * state W * list event) : result A :=
  fst (fst o).
Definition state_of {W A} (o : result A * state W * list event) : state W :=
  snd (fst o).

(** ** Command line *)

(** [--shots] and [--duration] form a required, mutually exclusive group:
    exactly one of them is given. *)
Inductive span : Type :=
| Shots (n : Z)
| Duration (secs : Z).

(** The namespace [parse_args] returns.  [interval] and a [Duration] are in
    seconds, [load_wait] in microseconds. *)
Record args : Type := Args {
  url : string;
  out : string;
  interval : Z;
  ticks : span;
  width : Z;
  height : Z;
  fullpage : bool;
  load_wait : Z;
  fps : Z;
  video : string
}.

(** The integer nearest to the exact quotient [a / b], for [b] not zero;
    of the two nearest it is the even one when the quotient lies half-way.
    This is the rounding rule both of the float division and of [round]
    below. *)
Definition round_div (a b : Z) : Z :=
  let q := a / b in
  let r := a mod b in
  match 2 * Z.abs r ?= Z.abs b with
  | Lt => q
  | Gt => q + 1
  | Eq => if Z.even q then q else q + 1
  end.

(** The exponent of the binade of [n / d], that is [floor (log2 (n / d))],
    for positive [n] and [d]. *)
Definition quotient_exponent (n d : Z) : Z :=
  let e0 := Z.log2 n - Z.log2 d in
  if (if 0 <=? e0 then d * 2 ^ e0 <=? n else d <=? n * 2 ^ (- e0))
  then e0 else e0 - 1.

(** [a / b] on two Python integers: the binary64 float nearest to the
    exact quotient, ties to the even significand.  A finite float is the
    pair [(m, u)] of value [m * 2 ^ u]: a significand of at most 53 bits
    over the unit of the quotient's binade, which is never finer than
    [2 ^ -1074].  A zero divisor raises [ZeroDivisionError]; a quotient that
    rounds to [2 ^ 1024] or beyond raises [OverflowError]. *)
Definition true_divide (a b : Z) : result (Z * Z) :=
  if b =? 0 then Raise (Exception "division by zero")
  else if a =? 0 then Ok (0, 0)
  else
    let u := Z.max (quotient_exponent (Z.abs a) (Z.abs b) - 52) (-1074) in
    let m := if 0 <=? u then round_div a (b * 2 ^ u)
             else round_div (a * 2 ^ (- u)) b in
    if 1024 <=? Z.log2 (Z.abs m) + u
    then Raise (Exception "integer division result too large for a float")
    else Ok (m, u).

(** The same quotient by the Standard Library's specification of binary64
    division, on the two integers as exact operands; used to compare. *)
Definition spec_of_Z (z : Z) : spec_float :=
  match z with
  | Z0 => S754_zero false
  | Zpos p => S754_finite false p 0
  | Zneg p => S754_finite true p 0
  end.

Definition spec_true_divide (a b : Z) : spec_float :=
  SFdiv 53 1024 (spec_of_Z a) (spec_of_Z b).

(** A result of [true_divide] and a float of the specification that have
    the same value, an error standing for an infinity. *)
Definition same_float (r : result (Z * Z)) (x : spec_float) : bool :=
  match r, x with
  | Ok (m, u), S754_zero _ => m =? 0
  | Ok (m, u), S754_finite sign p e =>
      let low := Z.min u e in
      m * 2 ^ (u - low)
      =? (if sign then Zneg p else Zpos p) * 2 ^ (e - low)
  | Raise _, S754_infinity _ => true
  | _, _ => false
  end.

(** [round(x)] on a finite float: the nearest integer, ties to even. *)
Definition round_float (x : Z * Z) : Z :=
  let '(m, u) := x in
  if 0 <=? u then m * 2 ^ u else round_div m (2 ^ (- u)).

(** Lines 162-166 of [main]:
    [max(1, int(round(args.duration / args.interval)))] when no shot count
    is given. *)
Definition compute_nshots (a : args) : result Z :=
  match ticks a with
  | Shots n => Ok n
  | Duration secs =>
      match true_divide secs (interval a) with
      | Ok x => Ok (Z.max 1 (round_float x))
      | Raise e => Raise e
      end
  end.

Definition dquote : string := String (ascii_of_nat 34) EmptyString.
Definition newline : string := String (ascii_of_nat 10) EmptyString.

(** The [-vf] argument of the command [maybe_build_video] runs. *)
Definition video_filter (width : Z) : string :=
  "scale=" +:+ Text.str width +:+ ":-1,pad=" +:+ Text.str width +:+ ":"
  +:+ Text.str width +:+ ":0:0:black".

(** The [-vf] argument of the command [maybe_build_video] prints when the
    encoder is missing. *)
Definition manual_filter (width : Z) : string :=
  "scale=" +:+ Text.str width +:+ ":-1,pad=" +:+ Text.str width
  +:+ ":ceil(ih/2)*2:0:0:black".

Definition ffmpeg_cmd (folder : string) (fps : Z) (video_name : string)
    (width : Z) : list string :=
  [ "ffmpeg"; "-y";
    "-framerate"; Text.str fps;
    "-pattern_type"; "glob";
    "-i"; Text.os_path_join folder "temp_*.png";
    "-vf"; video_filter width;
    "-c:v"; "libx264";
    "-pix_fmt"; "yuv420p";
    Text.os_path_join folder video_name ].

Definition manual_command (folder : string) (fps : Z) (video_name : string)
    (width : Z) : string :=
  "    ffmpeg -framerate " +:+ Text.str fps +:+ " -pattern_type glob -i "
  +:+ dquote +:+ folder +:+ "/screenshot_*.png" +:+ dquote +:+ " -vf "
  +:+ dquote +:+ manual_filter width +:+ dquote
  +:+ " -c:v libx264 -pix_fmt yuv420p "
  +:+ dquote +:+ Text.os_path_join folder video_name +:+ dquote +:+ newline.

(** The script of [fullpage_screenshot], on one line. *)
Definition height_script : string :=
  "const body = document.body, html = document.documentElement; "
  +:+ "return Math.max(body.scrollHeight, body.offsetHeight, "
  +:+ "html.clientHeight, html.scrollHeight, html.offsetHeight);".

Definition screenshot_name (idx : Z) (ts : string) : string :=
  "screenshot_" +:+ Text.fmt_06d idx +:+ "_" +:+ ts +:+ ".png".


Definition temp_name (folder : string) (i : Z) : string :=
  Text.os_path_join folder ("temp_" +:+ Text.fmt_06d i +:+ ".png").

(** What [glob.has_magic] looks for in a path: one of [*], [?] and the
    opening bracket. *)
Definition has_magic (s : string) : bool :=
  Text.contains_char "*" s || Text.contains_char "?" s
  || Text.contains_char "[" s.

(** A folder that [glob.glob] takes as the directory of that very name and
    joins back to what it finds as [os.path.join] does: no pattern
    character in it, and no doubled separator at its end (which
    [os.path.split] would drop). *)
Definition plain_folder (folder : string) : bool :=
  negb (has_magic folder) && negb (Text.ends_with "//" folder).

(** [fnmatch] of a path against [before_star * after_star], the star not
    crossing a directory separator.  The part before the star is compared
    character by character, which is what [glob.glob] does with the
    directory of a pattern when that directory is a [plain_folder]. *)
Definition matches_star (before_star after_star path : string) : bool :=
  match Text.strip_prefix before_star path with
  | Some rest =>
      Text.ends_with after_star rest
      && negb (Text.contains_char "/"
                 (String.substring 0
                    (String.length rest - String.length after_star) rest))
  | None => false
  end.

(** [list.sort(key=...)] on (key, item) pairs: a stable insertion sort. *)
Fixpoint insert_by_key (x : Z * string) (l : list (Z * string)) :
    list (Z * string) :=
  match l with
  | [] => [x]
  | y :: l' => if x.1 <=? y.1 then x :: y :: l' else y :: insert_by_key x l'
  end.

Definition sort_by_key (l : list (Z * string)) : list (Z * string) :=
  foldr insert_by_key [] l.

(** ** Files moved in bulk *)

(** The modification time [os.path.getmtime] reads for a path that exists. *)
Definition mtime_in (files : gmap string file) (path : string) : Z :=
  match files !! path with
  | Some f => mtime f
  | None => 0
  end.

(** The frames [glob] finds, in the order the map lists them. *)
Definition frame_paths (folder : string) (files : gmap string file) :
    list string :=
  filter (fun p => matches_star (Text.os_path_join folder "screenshot_")
                                ".png" p = true)
         (map_to_list files).*1.

(** The mapping [temp_files] of [maybe_build_video] for a sorted list,
    counting from [i]. *)
Fixpoint temp_pairs (folder : string) (i : Z) (files : list string) :
    list (string * string) :=
  match files with
  | [] => []
  | file_path :: rest =>
      (file_path, temp_name folder i) :: temp_pairs folder (i + 1) rest
  end.

(** What one [os.rename] does to the files, a missing source leaving them
    as they are. *)
Definition rename_one (files : gmap string file) (src dst : string) :
    gmap string file :=
  match files !! src with
  | Some f => <[dst := f]> (delete src files)
  | None => files
  end.

Definition rename_all (moves : list (string * string))
    (files : gmap string file) : gmap string file :=
  foldl (fun m '(src, dst) => rename_one m src dst) files moves.

Definition swap_pair (p : string * string) : string * string := (p.2, p.1).

(** ** The program *)

Section Program.

Context {W : Type} {world : World W}.

(** *** Calls into the world *)

Definition external {A} (op : W -> result A * W) (ev : result A -> event) :
    M W A :=
  fun s => let '(r, w) := op (ext s) in (r, State w (fs s), [ev r]).

Definition print (m : message) : M W unit :=
  fun s => (Ok tt, s, [EvPrint m]).

Definition datetime_now : M W Z :=
  fun s => let '(t, w) := clock_now (ext s) in
           (Ok t, State w (fs s), [EvNow t]).

(** [time.sleep] refuses a negative length before it suspends. *)
Definition time_sleep (us : Z) : M W unit :=
  if us <? 0 then raise (Exception "sleep length must be non-negative")
  else external (clock_sleep us) (EvSleep us).

Definition os_makedirs (path : string) : M W unit :=
  external (os_makedirs_ext path) (EvMakedirs path).

Definition webdriver_Chrome (width height : Z) : M W handle :=
  external (chrome_start width height) (EvChrome width height).

Definition set_page_load_timeout (driver : handle) (secs : Z) : M W unit :=
  external (chrome_set_page_load_timeout driver secs)
           (EvSetPageLoadTimeout driver secs).

Definition driver_get (driver : handle) (url : string) : M W unit :=
  external (chrome_get driver url) (EvGet driver url).

Definition execute_script (driver : handle) (js : string) :
    M W (option Z) :=
  external (chrome_execute_script driver js) (EvExecuteScript driver js).

Definition get_window_width (driver : handle) : M W Z :=
  external (chrome_window_width driver) (EvGetWindowSize driver).

Definition set_window_size (driver : handle) (w h : Z) : M W unit :=
  external (chrome_set_window_size driver w h) (EvSetWindowSize driver w h).

(** [driver.save_screenshot(path)]: the file appears when Selenium
    answers [True]. *)
Definition save_screenshot (driver : handle) (path : string) : M W bool :=
  fun s =>
    match chrome_screenshot driver (ext s) with
    | (Ok (Some png), w) =>
        (Ok true, State w (<[path := png]> (fs s)),
         [EvSaveScreenshot driver path (Ok true)])
    | (Ok None, w) =>
        (Ok false, State w (fs s), [EvSaveScreenshot driver path (Ok false)])
    | (Raise e, w) =>
        (Raise e, State w (fs s), [EvSaveScreenshot driver path (Raise e)])
    end.

Definition driver_quit (driver : handle) : M W unit :=
  external (chrome_quit driver) (EvQuit driver).

Definition shutil_which (prog : string) : M W bool :=
  fun s => let found := path_which prog (ext s) in
           (Ok found, s, [EvWhich prog found]).

(** [glob.glob] of a pattern with one star in its last component, for a
    directory part that is a [plain_folder]: the entries of that directory
    that match, each joined to the directory as given. *)
Definition glob_star (before_star after_star : string) : M W (list string) :=
  fun s =>
    let found :=
      filter (fun p => matches_star before_star after_star p = true)
             (scandir_order (map_to_list (fs s)).*1) in
    (Ok found, s, [EvGlob before_star after_star found]).

Definition os_path_getmtime (path : string) : M W Z :=
  fun s =>
    let r := match fs s !! path with
             | Some f => Ok (mtime f)
             | None => Raise (Exception "No such file or directory")
             end in
    (r, s, [EvGetmtime path r]).

(** [os.rename], POSIX: the source must exist, an existing destination
    is replaced. *)
Definition os_rename (src dst : string) : M W unit :=
  fun s =>
    match fs s !! src with
    | Some f =>
        (Ok tt, State (ext s) (<[dst := f]> (delete src (fs s))),
         [EvRename src dst (Ok tt)])
    | None =>
        let e := Exception "No such file or directory" in
        (Raise e, s, [EvRename src dst (Raise e)])
    end.

Definition subprocess_run (cmd : list string) : M W (Z * string) :=
  fun s =>
    let '(r, files, w) := encoder_run cmd (fs s) (ext s) in
    (r, State w files, [EvRun cmd r]).

(** *** Capture *)

Definition ensure_out_dir (path : string) : M W unit := os_makedirs path.

Definition new_driver (width height : Z) : M W handle :=
  driver <- webdriver_Chrome width height ;;
  set_page_load_timeout driver 120 ;;;
  ret driver.

Definition get_timestamped_name (idx : Z) : M W string :=
  now <- datetime_now ;;
  ret (screenshot_name idx (clock_strftime now)).

Definition scroll_to_top (driver : handle) : M W unit :=
  execute_script driver "window.scrollTo(0, 0);" ;;; ret tt.

Definition fullpage_screenshot (driver : handle) (path : string) : M W unit :=
  value <- execute_script driver height_script ;;
  total_height <-
    match value with
    | Some h => ret h
    | None => raise (Exception "int() argument must be a number")
    end ;;
  let max_height := Z.min total_height 20000 in
  w <- get_window_width driver ;;
  set_window_size driver w max_height ;;;
  time_sleep 500000 ;;;
  save_screenshot driver path ;;;
  ret tt.

Definition viewport_screenshot (driver : handle) (path : string) : M W unit :=
  save_screenshot driver path ;;; ret tt.

Definition capture_once (driver : handle) (url : string)
    (wait_after_load : Z) (fullpage : bool) (path : string) : M W unit :=
  driver_get driver url ;;;
  time_sleep wait_after_load ;;;
  scroll_to_top driver ;;;
  if fullpage then
    try_except (fullpage_screenshot driver path)
               (fun _ => viewport_screenshot driver path)
  else viewport_screenshot driver path.

(** *** Assembly *)

(** The keys [list.sort(key=os.path.getmtime)] computes, one call per
    item, before anything moves. *)
Fixpoint mtime_keys (files : list string) : M W (list (Z * string)) :=
  match files with
  | [] => ret []
  | file_path :: rest =>
      k <- os_path_getmtime file_path ;;
      ks <- mtime_keys rest ;;
      ret ((k, file_path) :: ks)
  end.

Definition sort_by_mtime (files : list string) : M W (list string) :=
  ks <- mtime_keys files ;;
  ret (sort_by_key ks).*2.

(** Lines 122-126, [enumerate] counting from [i]. *)
Fixpoint rename_to_temp (folder : string) (i : Z) (files : list string) :
    M W (list (string * string)) :=
  match files with
  | [] => ret []
  | file_path :: rest =>
      let temp := temp_name folder i in
      os_rename file_path temp ;;;
      temp_files <- rename_to_temp folder (i + 1) rest ;;
      ret ((file_path, temp) :: temp_files)
  end.

(** Lines 143-148. *)
Fixpoint restore_names (temp_files : list (string * string)) : M W unit :=
  match temp_files with
  | [] => ret tt
  | (original_path, temp_path) :: rest =>
      try_except_all (os_rename temp_path original_path) (ret tt) ;;;
      restore_names rest
  end.

Definition maybe_build_video (folder : string) (fps : Z)
    (video_name : string) (width : Z) : M W bool :=
  found <- shutil_which "ffmpeg" ;;
  if negb found then
    print MsgNoFfmpeg ;;;
    print MsgInstallHint ;;;
    print (MsgManualCommand (manual_command folder fps video_name width)) ;;;
    ret false
  else
    globbed <- glob_star (Text.os_path_join folder "screenshot_") ".png" ;;
    screenshot_files <- sort_by_mtime globbed ;;
    match screenshot_files with
    | [] => print MsgNoFrames ;;; ret false
    | _ :: _ =>
        temp_files <- rename_to_temp folder 0 screenshot_files ;;
        let cmd := ffmpeg_cmd folder fps video_name width in
        print MsgBuilding ;;;
        res <- subprocess_run cmd ;;
        restore_names temp_files ;;;
        if res.1 =? 0 then
          print (MsgSaved (Text.os_path_join folder video_name)) ;;;
          ret true
        else
          print (MsgFfmpegFailed res.2) ;;;
          ret false
    end.

(** *** Scheduling *)

(** The body of the loop of [main] for index [i]. *)
Definition tick (a : args) (nshots : Z) (driver : handle) (i : Z) :
    M W unit :=
  img_name <- get_timestamped_name i ;;
  let img_path := Text.os_path_join (out a) img_name in
  t0 <- datetime_now ;;
  print (MsgCapturing (i + 1) nshots img_name) ;;;
  try_except
    (capture_once driver (url a) (load_wait a) (fullpage a) img_path ;;;
     print MsgDone)
    (fun e => print (MsgError e)) ;;;
  if i <? nshots - 1 then
    now <- datetime_now ;;
    let elapsed := now - t0 in
    let sleep_for := Z.max 0 (interval a * 1000000 - elapsed) in
    time_sleep sleep_for
  else ret tt.

(** Lines 177-197: the body of the [try] once the driver is bound. *)
Definition schedule (a : args) (nshots : Z) (driver : handle) : M W unit :=
  start <- datetime_now ;;
  for_each (range nshots) (tick a nshots driver) ;;;
  finish <- datetime_now ;;
  print (MsgFinished nshots (finish - start)).

(** [main].  The local [driver] is [None] until [new_driver] has
    returned, so the [finally] clause has nothing to release when
    [new_driver] raises, and calls [driver.quit()] on every exit after
    that. *)
Definition main (a : args) : M W unit :=
  ensure_out_dir (out a) ;;;
  nshots <- lift (compute_nshots a) ;;
  print (MsgUrl (url a)) ;;;
  print (MsgOutputFolder (out a)) ;;;
  print (MsgPlan (interval a) nshots (fullpage a)) ;;;
  print (MsgViewport (width a) (height a) (load_wait a)) ;;;
  print (MsgVideoPlan (fps a) (video a)) ;;;
  (driver <- new_driver (width a) (height a) ;;
   try_finally (schedule a nshots driver) (driver_quit driver)) ;;;
  maybe_build_video (out a) (fps a) (video a) (width a) ;;;
  ret tt.

(** The [__main__] block: the exit status of the process. *)
Definition script (a : args) : state W -> Z * state W * list event :=
  fun s =>
    match main a s with
    | (Ok _, s1, t1) => (0, s1, t1)
    | (Raise KeyboardInterrupt, s1, t1) =>
        (1, s1, t1 ++ [EvPrint MsgInterrupted])
    | (Raise (Exception _), s1, t1) => (1, s1, t1)
    end.

(** *** What the assembly computes before the encoder runs *)

(** The list [glob] returns. *)
Definition globbed_in (folder : string) (files : gmap string file) :
    list string :=
  filter (fun p => matches_star (Text.os_path_join folder "screenshot_")
                                ".png" p = true)
         (scandir_order (map_to_list files).*1).

(** [screenshot_files] after the sort. *)
Definition sorted_frames (folder : string) (files : gmap string file) :
    list string :=
  (sort_by_key ((fun p => (mtime_in files p, p)) <$> globbed_in folder files)).*2.

(** The events up to the sort. *)
Definition assembly_head (folder : string) (files : gmap string file) :
    list event :=
  EvWhich "ffmpeg" true
  :: EvGlob (Text.os_path_join folder "screenshot_") ".png"
            (globbed_in folder files)
  :: ((fun p => EvGetmtime p (Ok (mtime_in files p)))
        <$> globbed_in folder files).

Definition rename_events (moves : list (string * string)) : list event :=
  (fun m => EvRename m.1 m.2 (Ok tt)) <$> moves.

(** *** Statements about computations *)

(** Every event a computation emits satisfies [P], whatever the state. *)
Definition emits {A} (P : event -> bool) (m : M W A) : Prop :=
  forall s, forallb P (trace_of (m s)) = true.




End Program.

(** ** Reading traces *)


(** Everything but the acquisition and release of browser sessions. *)
Definition no_lifecycle (e : event) : bool :=
  match e with
  | EvChrome _ _ _ | EvSetPageLoadTimeout _ _ _ | EvQuit _ _ => false
  | _ => true
  end.

(** The sessions [new_driver] has returned: its last call, on the session
    [webdriver.Chrome] gave, succeeded. *)
Definition sessions (t : list event) : list handle :=
  omap (fun e => match e with
                 | EvSetPageLoadTimeout d _ (Ok _) => Some d
                 | _ => None
                 end) t.

(** The sessions [driver.quit()] was called on, one entry per call. *)
Definition released (t : list event) : list handle :=
  omap (fun e => match e with EvQuit d _ => Some d | _ => None end) t.

(** At most one session, and the calls of [quit] are exactly one per
    session returned. *)
Definition balanced (t : list event) : Prop :=
  released t = sessions t /\ (length (sessions t) <= 1)%nat.


(** What the loop reports about each attempt. *)
Definition reported (t : list event) : list message :=
  omap (fun e => match e with
                 | EvPrint MsgDone => Some MsgDone
                 | EvPrint (MsgError detail) => Some (MsgError detail)
                 | _ => None
                 end) t.


Definition printed (t : list event) : list message :=
  omap (fun e => match e with EvPrint m => Some m | _ => None end) t.

Definition renamed (t : list event) : list (string * string * result unit) :=
  omap (fun e => match e with
                 | EvRename src dst r => Some (src, dst, r)
                 | _ => None
                 end) t.




(** The directory hands out each entry once. *)
Definition ScanLaw (W : Type) {world : World W} : Prop :=
  forall l : list string, scandir_order l ≡ₚ l.



(** ** A scripted world

    A world that answers from a fixed script, for running the program on
    examples.  The script sees how many calls the world has served; the
    clock advances by one second per navigation and by the length of
    each sleep. *)

Record behaviour : Type := Behaviour {
  b_makedirs : result unit;
  b_start : result handle;
  b_timeout : result unit;
  b_get : nat -> result unit;
  b_sleep : nat -> result unit;
  b_script : nat -> result (option Z);
  b_width : nat -> result Z;
  b_resize : nat -> result unit;
  b_screenshot : nat -> result bool;
  b_quit : result unit;
  b_ffmpeg : bool;
  b_scandir : list string -> list string;
  b_encoder :
    list string -> gmap string file -> result (Z * string) * gmap string file
}.

Record sim (b : behaviour) : Type := Sim { calls : nat; clock : Z }.

Arguments Sim {b} calls clock.
Arguments calls {b} s.
Arguments clock {b} s.

Definition served {b} (w : sim b) (cost : Z) : sim b :=
  Sim (S (calls w)) (clock w + cost).

#[export] Instance sim_world (b : behaviour) : World (sim b) := {
  os_makedirs_ext _ w := (b_makedirs b, served w 0);
  clock_now w := (clock w, served w 1);
  clock_strftime t := Text.str t;
  clock_sleep us w := (b_sleep b (calls w), served w us);
  chrome_start _ _ w := (b_start b, served w 0);
  chrome_set_page_load_timeout _ _ w := (b_timeout b, served w 0);
  chrome_get _ _ w := (b_get b (calls w), served w 1000000);
  chrome_execute_script _ _ w := (b_script b (calls w), served w 0);
  chrome_window_width _ w := (b_width b (calls w), served w 0);
  chrome_set_window_size _ _ _ w := (b_resize b (calls w), served w 0);
  chrome_screenshot _ w :=
    (match b_screenshot b (calls w) with
     | Ok true => Ok (Some (File (clock w) "png"))
     | Ok false => Ok None
     | Raise e => Raise e
     end, served w 0);
  chrome_quit _ w := (b_quit b, served w 0);
  path_which _ _ := b_ffmpeg b;
  scandir_order := b_scandir b;
  encoder_run cmd files w :=
    let '(r, files') := b_encoder b cmd files in (r, files', served w 0)
}.

(** An encoder that writes the video at the last argument of its command. *)
Definition encoder_writes (status : Z) (cmd : list string)
    (files : gmap string file) : result (Z * string) * gmap string file :=
  (Ok (status, ""), <[List.last cmd "" := File 0 "mp4"]> files).

(** Every call succeeds, except that every third call into the world,
    when it is a navigation, times out. *)
Definition flaky : behaviour := {|
  b_makedirs := Ok tt;
  b_start := Ok 7%nat;
  b_timeout := Ok tt;
  b_get n := if (n mod 3 =? 0)%nat then Raise (Exception "timeout") else Ok tt;
  b_sleep _ := Ok tt;
  b_script _ := Ok (Some 1500);
  b_width _ := Ok 1280;
  b_resize _ := Ok tt;
  b_screenshot _ := Ok true;
  b_quit := Ok tt;
  b_ffmpeg := true;
  b_scandir l := l;
  b_encoder := encoder_writes 0
|}.

Definition demo_args : args := {|
  url := "https://example.com";
  out := "./captures";
  interval := 10;
  ticks := Shots 3;
  width := 1280;
  height := 800;
  fullpage := false;
  load_wait := 3000000;
  fps := 12;
  video := "timelapse.mp4"
|}.

Definition boot {b} : state (sim b) := State (Sim 0 0) ∅.

(** The operator presses Ctrl-C during the first sleep. *)
Definition interrupted : behaviour := {|
  b_makedirs := Ok tt;
  b_start := Ok 7%nat;
  b_timeout := Ok tt;
  b_get _ := Ok tt;
  b_sleep _ := Raise KeyboardInterrupt;
  b_script _ := Ok (Some 1500);
  b_width _ := Ok 1280;
  b_resize _ := Ok tt;
  b_screenshot _ := Ok true;
  b_quit := Ok tt;
  b_ffmpeg := true;
  b_scandir l := l;
  b_encoder := encoder_writes 0
|}.

(** The browser starts but rejects the page-load timeout. *)
Definition no_timeout : behaviour := {|
  b_makedirs := Ok tt;
  b_start := Ok 7%nat;
  b_timeout := Raise (Exception "no session");
  b_get _ := Ok tt;
  b_sleep _ := Ok tt;
  b_script _ := Ok (Some 1500);
  b_width _ := Ok 1280;
  b_resize _ := Ok tt;
  b_screenshot _ := Ok true;
  b_quit := Ok tt;
  b_ffmpeg := true;
  b_scandir l := l;
  b_encoder := encoder_writes 0
|}.

(** The first navigation times out and the sleep between the first two
    ticks fails with an error. *)
Definition broken_sleep : behaviour := {|
  b_makedirs := Ok tt;
  b_start := Ok 7%nat;
  b_timeout := Ok tt;
  b_get n := if (n =? 6)%nat then Raise (Exception "timeout") else Ok tt;
  b_sleep n := if (n =? 8)%nat then Raise (Exception "EINVAL") else Ok tt;
  b_script _ := Ok (Some 1500);
  b_width _ := Ok 1280;
  b_resize _ := Ok tt;
  b_screenshot _ := Ok true;
  b_quit := Ok tt;
  b_ffmpeg := true;
  b_scandir l := l;
  b_encoder := encoder_writes 0
|}.

(** The browser refuses to resize its window. *)
Definition no_resize : behaviour := {|
  b_makedirs := Ok tt;
  b_start := Ok 7%nat;
  b_timeout := Ok tt;
  b_get _ := Ok tt;
  b_sleep _ := Ok tt;
  b_script _ := Ok (Some 1500);
  b_width _ := Ok 1280;
  b_resize _ := Raise (Exception "cannot resize");
  b_screenshot _ := Ok true;
  b_quit := Ok tt;
  b_ffmpeg := true;
  b_scandir l := l;
  b_encoder := encoder_writes 0
|}.

Definition idle_args : args := {|
  url := "https://example.com";
  out := "./captures";
  interval := 10;
  ticks := Shots (-2);
  width := 1280;
  height := 800;
  fullpage := false;
  load_wait := 3000000;
  fps := 12;
  video := "timelapse.mp4"
|}.

(** Three frames whose names sort against their modification times, and
    a file that is not a frame. *)
Definition shelf : gmap string file :=
  <[ "./captures/screenshot_c.png" := File 100 "first" ]>
  (<[ "./captures/screenshot_b.png" := File 200 "second" ]>
   (<[ "./captures/screenshot_a.png" := File 300 "third" ]>
    (<[ "./captures/notes.txt" := File 50 "notes" ]> ∅))).

Definition on_shelf {b} : state (sim b) := State (Sim 0 0) shelf.

(** The encoder is not installed. *)
Definition no_ffmpeg : behaviour := {|
  b_makedirs := Ok tt;
  b_start := Ok 7%nat;
  b_timeout := Ok tt;
  b_get _ := Ok tt;
  b_sleep _ := Ok tt;
  b_script _ := Ok (Some 1500);
  b_width _ := Ok 1280;
  b_resize _ := Ok tt;
  b_screenshot _ := Ok true;
  b_quit := Ok tt;
  b_ffmpeg := false;
  b_scandir l := l;
  b_encoder := encoder_writes 0
|}.

(** The encoder exits with status 1. *)
Definition failing_encoder : behaviour := {|
  b_makedirs := Ok tt;
  b_start := Ok 7%nat;
  b_timeout := Ok tt;
  b_get _ := Ok tt;
  b_sleep _ := Ok tt;
  b_script _ := Ok (Some 1500);
  b_width _ := Ok 1280;
  b_resize _ := Ok tt;
  b_screenshot _ := Ok true;
  b_quit := Ok tt;
  b_ffmpeg := true;
  b_scandir l := l;
  b_encoder cmd files := (Ok (1, "Conversion failed!"), files)
|}.

(** The encoder process cannot be started. *)
Definition crashing_encoder : behaviour := {|
  b_makedirs := Ok tt;
  b_start := Ok 7%nat;
  b_timeout := Ok tt;
  b_get _ := Ok tt;
  b_sleep _ := Ok tt;
  b_script _ := Ok (Some 1500);
  b_width _ := Ok 1280;
  b_resize _ := Ok tt;
  b_screenshot _ := Ok true;
  b_quit := Ok tt;
  b_ffmpeg := true;
  b_scandir l := l;
  b_encoder cmd files := (Raise (Exception "Exec format error"), files)
|}.

(** The encoder succeeds but removes its second input on the way. *)
Definition clumsy_encoder : behaviour := {|
  b_makedirs := Ok tt;
  b_start := Ok 7%nat;
  b_timeout := Ok tt;
  b_get _ := Ok tt;
  b_sleep _ := Ok tt;
  b_script _ := Ok (Some 1500);
  b_width _ := Ok 1280;
  b_resize _ := Ok tt;
  b_screenshot _ := Ok true;
  b_quit := Ok tt;
  b_ffmpeg := true;
  b_scandir l := l;
  b_encoder cmd files :=
    (Ok (0, ""),
     <[ List.last cmd "" := File 0 "mp4" ]>
       (delete "./captures/temp_000001.png" files))
|}.

(** ** More ways of reading a run *)

(** The five lines [main] prints before it starts the browser. *)
Definition banner (a : args) (nshots : Z) : list event :=
  [ EvPrint (MsgUrl (url a));
    EvPrint (MsgOutputFolder (out a));
    EvPrint (MsgPlan (interval a) nshots (fullpage a));
    EvPrint (MsgViewport (width a) (height a) (load_wait a));
    EvPrint (MsgVideoPlan (fps a) (video a)) ].

(** A resize that does not ask for more than 20000 pixels of height. *)
Definition height_capped (e : event) : bool :=
  match e with
  | EvSetWindowSize _ _ h _ => h <=? 20000
  | _ => true
  end.

(** Nothing that reads or changes the window, and no height query. *)
Definition leaves_window (e : event) : bool :=
  match e with
  | EvSetWindowSize _ _ _ _ | EvGetWindowSize _ _ => false
  | EvExecuteScript _ js _ => negb (String.eqb js height_script)
  | _ => true
  end.

(** Nothing of the assembly: no PATH lookup, listing, rename or encoder. *)
Definition no_assembly (e : event) : bool :=
  match e with
  | EvWhich _ _ | EvGlob _ _ _ | EvGetmtime _ _ | EvRename _ _ _
  | EvRun _ _ => false
  | _ => true
  end.

(** Nothing of a tick: no announcement, navigation or page work. *)
Definition no_capture (e : event) : bool :=
  match e with
  | EvPrint (MsgCapturing _ _ _) | EvGet _ _ _ | EvSaveScreenshot _ _ _
  | EvSetWindowSize _ _ _ _ | EvGetWindowSize _ _ | EvExecuteScript _ _ _ =>
      false
  | _ => true
  end.

Section Keeping.

Context {W : Type} {world : World W}.

(** A computation that leaves the file at [p] as it found it. *)
Definition keeps {A} (p : string) (m : M W A) : Prop :=
  forall s, fs (state_of (m s)) !! p = fs s !! p.

End Keeping.

(** ** The requirements list of [setup.py] *)

Module Setup.

(** [str.isspace] on the code points below 256. *)
Definition isspace (c : ascii) : bool :=
  let n := nat_of_ascii c in
  ((9 <=? n) && (n <=? 13) || (28 <=? n) && (n <=? 32)
   || (n =? 133) || (n =? 160))%nat.

Fixpoint lstrip (s : string) : string :=
  match s with
  | EmptyString => EmptyString
  | String c s' => if isspace c then lstrip s' else s
  end.

Fixpoint rstrip (s : string) : string :=
  match s with
  | EmptyString => EmptyString
  | String c s' =>
      match rstrip s' with
      | EmptyString => if isspace c then EmptyString else String c EmptyString
      | r => String c r
      end
  end.

(** [str.strip()]. *)
Definition strip (s : string) : string := rstrip (lstrip s).

(** Line 12: [[line.strip() for line in fh
               if line.strip() and not line.startswith("#")]]. *)
Fixpoint requirements (lines : list string) : list string :=
  match lines with
  | [] => []
  | line :: rest =>
      if negb (String.eqb (strip line) "") && negb (Text.starts_with "#" line)
      then strip line :: requirements rest
      else requirements rest
  end.

End Setup.

(** ** More scripted worlds *)

(** The browser cannot be started. *)
Definition no_browser : behaviour := {|
  b_makedirs := Ok tt;
  b_start := Raise (Exception "chrome not reachable");
  b_timeout := Ok tt;
  b_get _ := Ok tt;
  b_sleep _ := Ok tt;
  b_script _ := Ok (Some 1500);
  b_width _ := Ok 1280;
  b_resize _ := Ok tt;
  b_screenshot _ := Ok true;
  b_quit := Ok tt;
  b_ffmpeg := true;
  b_scandir l := l;
  b_encoder := encoder_writes 0
|}.

(** The browser refuses to shut down. *)
Definition bad_quit : behaviour := {|
  b_makedirs := Ok tt;
  b_start := Ok 7%nat;
  b_timeout := Ok tt;
  b_get _ := Ok tt;
  b_sleep _ := Ok tt;
  b_script _ := Ok (Some 1500);
  b_width _ := Ok 1280;
  b_resize _ := Ok tt;
  b_screenshot _ := Ok true;
  b_quit := Raise (Exception "invalid session id");
  b_ffmpeg := true;
  b_scandir l := l;
  b_encoder := encoder_writes 0
|}.

(** Every snapshot fails to reach the disk: Selenium answers [False]. *)
Definition blind : behaviour := {|
  b_makedirs := Ok tt;
  b_start := Ok 7%nat;
  b_timeout := Ok tt;
  b_get _ := Ok tt;
  b_sleep _ := Ok tt;
  b_script _ := Ok (Some 1500);
  b_width _ := Ok 1280;
  b_resize _ := Ok tt;
  b_screenshot _ := Ok false;
  b_quit := Ok tt;
  b_ffmpeg := true;
  b_scandir l := l;
  b_encoder := encoder_writes 0
|}.

(** A very tall page, captured in full. *)
Definition tall_page : behaviour := {|
  b_makedirs := Ok tt;
  b_start := Ok 7%nat;
  b_timeout := Ok tt;
  b_get _ := Ok tt;
  b_sleep _ := Ok tt;
  b_script _ := Ok (Some 250000);
  b_width _ := Ok 1280;
  b_resize _ := Ok tt;
  b_screenshot _ := Ok true;
  b_quit := Ok tt;
  b_ffmpeg := true;
  b_scandir l := l;
  b_encoder := encoder_writes 0
|}.

Definition fullpage_args : args := {|
  url := "https://example.com";
  out := "./captures";
  interval := 10;
  ticks := Shots 2;
  width := 1280;
  height := 800;
  fullpage := true;
  load_wait := 3000000;
  fps := 12;
  video := "timelapse.mp4"
|}.

Definition zero_interval_args : args := {|
  url := "https://example.com";
  out := "./captures";
  interval := 0;
  ticks := Duration 60;
  width := 1280;
  height := 800;
  fullpage := false;
  load_wait := 3000000;
  fps := 12;
  video := "timelapse.mp4"
|}.

(** Two frames written within the same second, the later one listed
    first, and an older frame. *)
Definition tied_shelf : gmap string file :=
  <[ "./captures/screenshot_a.png" := File 200 "a" ]>
  (<[ "./captures/screenshot_c.png" := File 200 "c" ]>
   (<[ "./captures/screenshot_b.png" := File 100 "b" ]> ∅)).

(** * Properties *)

(** ** Text *)

Section TextFacts.

Import Text.

#[local] Arguments String.append : simpl nomatch.

Lemma append_assoc (a b c : string) : (a +:+ b) +:+ c = a +:+ (b +:+ c).
Proof. induction a as [|x a IH]; simpl; [reflexivity | now rewrite IH]. Qed.

Lemma strip_prefix_app (p s : string) : strip_prefix p (p +:+ s) = Some s.
Proof.
  induction p as [|x p IH]; simpl; [reflexivity|].
  now rewrite Ascii.eqb_refl.
Qed.

Lemma strip_prefix_common (a p s : string) :
  strip_prefix (a +:+ p) (a +:+ s) = strip_prefix p s.
Proof.
  induction a as [|x a IH]; simpl; [reflexivity|].
  now rewrite Ascii.eqb_refl.
Qed.

Lemma strip_prefix_Some (p s rest : string) :
  strip_prefix p s = Some rest -> s = p +:+ rest.
Proof.
  revert s; induction p as [|x p IH]; intros s; simpl.
  - now intros [= ->].
  - destruct s as [|y s]; [discriminate|].
    destruct (Ascii.eqb x y) eqn:E; [|discriminate].
    apply Ascii.eqb_eq in E as ->. intros H. now rewrite (IH _ H).
Qed.

Lemma os_path_join_relative (a b : string) :
  starts_with "/" b = false -> os_path_join a b = dir_prefix a +:+ b.
Proof.
  intros Hb. unfold os_path_join, dir_prefix. rewrite Hb.
  destruct (String.eqb a "" || ends_with "/" a); [reflexivity|].
  now rewrite append_assoc.
Qed.

Lemma all_digits_app (a b : string) :
  all_digits (a +:+ b) = all_digits a && all_digits b.
Proof.
  induction a as [|x a IH]; simpl; [reflexivity|].
  now rewrite IH, andb_assoc.
Qed.

Lemma all_digits_zeros (k : nat) : all_digits (zeros k) = true.
Proof. induction k; simpl; auto. Qed.

Lemma all_digits_uint (d : Decimal.uint) :
  all_digits (NilEmpty.string_of_uint d) = true.
Proof. induction d; simpl; auto. Qed.

Lemma all_digits_fmt (i : Z) : 0 <= i -> all_digits (fmt_06d i) = true.
Proof.
  intros Hi. unfold fmt_06d.
  destruct (Z.ltb_spec i 0) as [?|_]; [lia|].
  unfold zfill, digits.
  now rewrite all_digits_app, all_digits_zeros, all_digits_uint.
Qed.

Lemma split_at_digits (c : ascii) (d rest : string) :
  is_digit c = false -> all_digits d = true ->
  split_at c (d +:+ String c rest) = Some (d, rest).
Proof.
  intros Hc. induction d as [|x d IH]; simpl.
  - now rewrite Ascii.eqb_refl.
  - intros [Hx Hd]%andb_true_iff.
    destruct (Ascii.eqb x c) eqn:E.
    + apply Ascii.eqb_eq in E as ->. congruence.
    + now rewrite (IH Hd).
Qed.

Lemma uint_of_string_zeros (k : nat) (s : string) :
  NilEmpty.uint_of_string (zeros k +:+ s)
  = Nat.iter k (option_map Decimal.D0) (NilEmpty.uint_of_string s).
Proof. induction k as [|k IH]; simpl; [reflexivity | now rewrite IH]. Qed.

Lemma of_uint_leading_zeros (k : nat) (o : option Decimal.uint) :
  option_map N.of_uint (Nat.iter k (option_map Decimal.D0) o)
  = option_map N.of_uint o.
Proof.
  induction k as [|k IH]; simpl; [reflexivity|].
  rewrite <- IH. now destruct (Nat.iter k _ o).
Qed.

Lemma digits_nonempty (n : N) : digits n <> "".
Proof.
  unfold digits. destruct n as [|p]; [discriminate|]. simpl.
  intros H.
  assert (Hu : NilEmpty.uint_of_string (NilEmpty.string_of_uint (Pos.to_uint p))
               = Some Decimal.Nil) by now rewrite H.
  rewrite NilEmpty.usu in Hu. injection Hu as Hu.
  pose proof (DecimalPos.Unsigned.of_to p) as Hp. rewrite Hu in Hp.
  discriminate.
Qed.

Lemma parse_dec_zfill (w : nat) (n : N) :
  parse_dec (zfill w (digits n)) = Some n.
Proof.
  unfold parse_dec.
  destruct (zfill w (digits n)) eqn:E.
  - exfalso. unfold zfill in E.
    destruct (zeros _) eqn:Z0; simpl in E; [|discriminate].
    now apply (digits_nonempty n).
  - rewrite <- E. unfold zfill.
    rewrite uint_of_string_zeros, of_uint_leading_zeros.
    unfold digits. rewrite NilEmpty.usu. simpl.
    now rewrite DecimalN.Unsigned.of_to.
Qed.

Lemma fmt_06d_parse (i : Z) :
  0 <= i -> parse_dec (fmt_06d i) = Some (Z.to_N i).
Proof.
  intros Hi. unfold fmt_06d.
  destruct (Z.ltb_spec i 0) as [?|_]; [lia|].
  rewrite parse_dec_zfill. f_equal. lia.
Qed.

Lemma fmt_06d_inj (i j : Z) :
  0 <= i -> 0 <= j -> fmt_06d i = fmt_06d j -> i = j.
Proof.
  intros Hi Hj E.
  pose proof (fmt_06d_parse i Hi) as Pi.
  rewrite E, (fmt_06d_parse j Hj) in Pi. injection Pi. lia.
Qed.


Lemma temp_name_eq (folder : string) (i : Z) :
  temp_name folder i = dir_prefix folder +:+ "temp_" +:+ fmt_06d i +:+ ".png".
Proof. unfold temp_name. now rewrite os_path_join_relative. Qed.

Lemma temp_name_inj (folder : string) (i j : Z) :
  0 <= i -> 0 <= j -> temp_name folder i = temp_name folder j -> i = j.
Proof.
  intros Hi Hj E. rewrite !temp_name_eq in E.
  apply String.app_inj in E. apply (String.app_inj "temp_") in E.
  change (".png") with (String "." "png") in E.
  assert (S : forall k, 0 <= k ->
            split_at "." (fmt_06d k +:+ String "." "png")
            = Some (fmt_06d k, "png")).
  { intros k Hk. apply split_at_digits; [reflexivity|].
    now apply all_digits_fmt. }
  pose proof (S i Hi) as Si. rewrite E, (S j Hj) in Si.
  injection Si as Si. symmetry in Si. now apply fmt_06d_inj.
Qed.

Lemma matches_star_not_temp (folder p : string) (j : Z) :
  matches_star (os_path_join folder "screenshot_") ".png" p = true ->
  p <> temp_name folder j.
Proof.
  intros Hm ->. unfold matches_star in Hm.
  rewrite os_path_join_relative, temp_name_eq in Hm by reflexivity.
  rewrite strip_prefix_common in Hm. simpl in Hm. discriminate.
Qed.

Example fmt_06d_pads : fmt_06d 7 = "000007".
Proof. reflexivity. Qed.

Example fmt_06d_grows : fmt_06d 1234567 = "1234567".
Proof. reflexivity. Qed.

Example screenshot_name_shape :
  screenshot_name 41 "20240229-235959"
  = "screenshot_000041_20240229-235959.png".
Proof. reflexivity. Qed.

Example temp_name_shape : temp_name "./captures" 2 = "./captures/temp_000002.png".
Proof. reflexivity. Qed.

Example os_path_join_cases :
  os_path_join "./captures" "a.png" = "./captures/a.png"
  /\ os_path_join "captures/" "a.png" = "captures/a.png"
  /\ os_path_join "" "a.png" = "a.png"
  /\ os_path_join "./captures" "/tmp/out.mp4" = "/tmp/out.mp4".
Proof. repeat split. Qed.

Example matches_star_cases :
  matches_star "./captures/screenshot_" ".png" "./captures/screenshot_1.png"
  = true
  /\ matches_star "./captures/screenshot_" ".png" "./captures/temp_000000.png"
     = false
  /\ matches_star "./captures/screenshot_" ".png"
       "./captures/screenshot_x/y.png" = false
  /\ matches_star "./captures/screenshot_" ".png" "./captures/screenshot_.jpg"
     = false.
Proof. repeat split. Qed.

End TextFacts.

(** ** Reasoning about computations *)

Section Computations.

Context {W : Type} {world : World W}.

Lemma bind_ok {A B} (m : M W A) (k : A -> M W B) s a s1 t1 :
  m s = (Ok a, s1, t1) ->
  bind m k s = (let '(r, s2, t2) := k a s1 in (r, s2, t1 ++ t2)).
Proof. intros E. unfold bind. now rewrite E. Qed.

Lemma bind_raise {A B} (m : M W A) (k : A -> M W B) s e s1 t1 :
  m s = (Raise e, s1, t1) -> bind m k s = (Raise e, s1, t1).
Proof. intros E. unfold bind. now rewrite E. Qed.

Lemma emits_ret {A} P (a : A) : emits P (ret (W := W) a).
Proof. intros s. reflexivity. Qed.

Lemma emits_raise {A} P e : emits P (raise (W := W) (A := A) e).
Proof. intros s. reflexivity. Qed.

Lemma emits_bind {A B} P (m : M W A) (k : A -> M W B) :
  emits P m -> (forall a, emits P (k a)) -> emits P (bind m k).
Proof.
  intros Hm Hk s. specialize (Hm s). unfold bind, trace_of in *.
  destruct (m s) as [[[a|e] s1] t1]; simpl in *; [|exact Hm].
  specialize (Hk a s1). unfold trace_of in Hk.
  destruct (k a s1) as [[r s2] t2]; simpl in *.
  rewrite forallb_app. now rewrite Hm, Hk.
Qed.

Lemma emits_try_except {A} P (body : M W A) (handler : string -> M W A) :
  emits P body -> (forall e, emits P (handler e)) ->
  emits P (try_except body handler).
Proof.
  intros Hb Hh s. specialize (Hb s). unfold try_except, trace_of in *.
  destruct (body s) as [[[a|[detail|]] s1] t1]; simpl in *; try exact Hb.
  specialize (Hh detail s1). unfold trace_of in Hh.
  destruct (handler detail s1) as [[r s2] t2]; simpl in *.
  rewrite forallb_app. now rewrite Hb, Hh.
Qed.

Lemma emits_try_except_all {A} P (body handler : M W A) :
  emits P body -> emits P handler -> emits P (try_except_all body handler).
Proof.
  intros Hb Hh s. specialize (Hb s). unfold try_except_all, trace_of in *.
  destruct (body s) as [[[a|e] s1] t1]; simpl in *; try exact Hb.
  specialize (Hh s1). unfold trace_of in Hh.
  destruct (handler s1) as [[r s2] t2]; simpl in *.
  rewrite forallb_app. now rewrite Hb, Hh.
Qed.

Lemma emits_for_each {A} P (xs : list A) (body : A -> M W unit) :
  (forall x, emits P (body x)) -> emits P (for_each xs body).
Proof.
  intros Hb. induction xs as [|x xs IH]; simpl.
  - apply emits_ret.
  - apply emits_bind; auto.
Qed.

Lemma emits_external {A} P (op : W -> result A * W) ev :
  (forall r, P (ev r) = true) -> emits P (external op ev).
Proof.
  intros H s. unfold external, trace_of.
  destruct (op (ext s)) as [r w]. simpl. now rewrite H.
Qed.

Lemma emits_print P m :
  P (EvPrint m) = true -> emits P (print (W := W) m).
Proof. intros H s. unfold print, trace_of. simpl. now rewrite H. Qed.

Lemma emits_now P : (forall t, P (EvNow t) = true) -> emits P datetime_now.
Proof.
  intros H s. unfold datetime_now, trace_of.
  destruct (clock_now (ext s)) as [t w]. simpl. now rewrite H.
Qed.

Lemma emits_sleep P us :
  (forall d r, P (EvSleep d r) = true) -> emits P (time_sleep us).
Proof.
  intros H. unfold time_sleep. destruct (us <? 0).
  - apply emits_raise.
  - apply emits_external. auto.
Qed.

Lemma emits_save_screenshot P d path :
  (forall r, P (EvSaveScreenshot d path r) = true) ->
  emits P (save_screenshot d path).
Proof.
  intros H s. unfold save_screenshot, trace_of.
  destruct (chrome_screenshot d (ext s)) as [[[png|]|e] w]; simpl;
    now rewrite H.
Qed.

Lemma emits_which P prog :
  (forall found, P (EvWhich prog found) = true) -> emits P (shutil_which prog).
Proof. intros H s. unfold shutil_which, trace_of. simpl. now rewrite H. Qed.

Lemma emits_glob P pre post :
  (forall found, P (EvGlob pre post found) = true) ->
  emits P (glob_star pre post).
Proof. intros H s. unfold glob_star, trace_of. simpl. now rewrite H. Qed.

Lemma emits_getmtime P path :
  (forall r, P (EvGetmtime path r) = true) -> emits P (os_path_getmtime (W := W) path).
Proof. intros H s. unfold os_path_getmtime, trace_of. simpl. now rewrite H. Qed.

Lemma emits_rename P src dst :
  (forall r, P (EvRename src dst r) = true) -> emits P (os_rename (W := W) src dst).
Proof.
  intros H s. unfold os_rename, trace_of.
  destruct (fs s !! src); simpl; now rewrite H.
Qed.

Lemma emits_run P cmd :
  (forall r, P (EvRun cmd r) = true) -> emits P (subprocess_run cmd).
Proof.
  intros H s. unfold subprocess_run, trace_of.
  destruct (encoder_run cmd (fs s) (ext s)) as [[r files] w]. simpl.
  now rewrite H.
Qed.






End Computations.

Create HintDb prog discriminated.

#[global] Hint Unfold
  os_makedirs webdriver_Chrome set_page_load_timeout driver_get execute_script
  get_window_width set_window_size driver_quit ensure_out_dir new_driver
  get_timestamped_name scroll_to_top fullpage_screenshot viewport_screenshot
  capture_once : prog.

(** Walks through a computation and leaves one goal per emitted event. *)
Ltac emits_walk :=
  autounfold with prog;
  repeat (intros;
    match goal with
    | |- emits _ (bind _ _) => apply emits_bind
    | |- emits _ (ret _) => apply emits_ret
    | |- emits _ (raise _) => apply emits_raise
    | |- emits _ (try_except _ _) => apply emits_try_except
    | |- emits _ (try_except_all _ _) => apply emits_try_except_all
    | |- emits _ (for_each _ _) => apply emits_for_each
    | |- emits _ (external _ _) => apply emits_external; intros; reflexivity
    | |- emits _ (print _) => apply emits_print; reflexivity
    | |- emits _ datetime_now => apply emits_now; intros; reflexivity
    | |- emits _ (time_sleep _) => apply emits_sleep; intros; reflexivity
    | |- emits _ (save_screenshot _ _) =>
        apply emits_save_screenshot; intros; reflexivity
    | |- emits _ (shutil_which _) => apply emits_which; intros; reflexivity
    | |- emits _ (glob_star _ _) => apply emits_glob; intros; reflexivity
    | |- emits _ (os_path_getmtime _) =>
        apply emits_getmtime; intros; reflexivity
    | |- emits _ (os_rename _ _) => apply emits_rename; intros; reflexivity
    | |- emits _ (subprocess_run _) => apply emits_run; intros; reflexivity
    | |- emits _ (match ?x with _ => _ end) => destruct x
    end).

(** ** The capture of one tick *)

Section Capture.

Context {W : Type} {world : World W}.










End Capture.

(** ** The scheduling loop *)

Section Scheduling.

Context {W : Type} {world : World W}.





End Scheduling.

(** ** Lists of observations *)

Lemma omap_nil_of_forallb {A B} (f : A -> option B) (P : A -> bool) (l : list A) :
  (forall x, P x = true -> f x = None) ->
  forallb P l = true -> omap f l = [].
Proof.
  intros H. induction l as [|x l IH]; simpl; [reflexivity|].
  intros [Hx Hl]%andb_true_iff. rewrite (H x Hx). now apply IH.
Qed.



Lemma range_elem (n i : Z) : i ∈ range n <-> 0 <= i < n.
Proof.
  unfold range. rewrite list_elem_of_fmap. split.
  - intros (k & -> & Hk). apply elem_of_seq in Hk. lia.
  - intros Hi. exists (Z.to_nat i). split; [lia|]. apply elem_of_seq. lia.
Qed.


Lemma range_length (n : Z) : length (range n) = Z.to_nat n.
Proof. unfold range. now rewrite length_fmap, length_seq. Qed.

(** ** Ticks and cadence *)

Section TickObservations.

Context {W : Type} {world : World W}.





End TickObservations.

(** ** Where the snapshots land *)

Section Snapshots.

Context {W : Type} {world : World W}.











End Snapshots.






(** What the loop prints on the scripted world: the first navigation
    times out, the next two captures succeed. *)
Example flaky_run_reports :
  reported (trace_of (schedule demo_args 3 7%nat (@boot flaky)))
  = [MsgError "timeout"; MsgDone; MsgDone].
Proof. vm_compute. reflexivity. Qed.



(** ** The browser session *)

Section Lifecycle.

Context {W : Type} {world : World W}.

Lemma mtime_keys_emits P files :
  (forall path r, P (EvGetmtime path r) = true) ->
  emits P (mtime_keys (W := W) files).
Proof.
  intros H. induction files as [|f files IH]; simpl; [apply emits_ret|].
  apply emits_bind; [apply emits_getmtime; auto|intros k].
  apply emits_bind; [exact IH|intros ks]. apply emits_ret.
Qed.

Lemma rename_to_temp_emits P folder i files :
  (forall src dst r, P (EvRename src dst r) = true) ->
  emits P (rename_to_temp (W := W) folder i files).
Proof.
  intros H. revert i.
  induction files as [|f files IH]; intros i; simpl; [apply emits_ret|].
  apply emits_bind; [apply emits_rename; auto|intros _].
  apply emits_bind; [apply IH|intros ks]. apply emits_ret.
Qed.

Lemma restore_names_emits P temp_files :
  (forall src dst r, P (EvRename src dst r) = true) ->
  emits P (restore_names (W := W) temp_files).
Proof.
  intros H. induction temp_files as [|[o t] rest IH]; simpl; [apply emits_ret|].
  apply emits_bind; [|intros _; exact IH].
  apply emits_try_except_all; [apply emits_rename; auto | apply emits_ret].
Qed.

Lemma maybe_build_video_neutral folder rate video_name wd :
  emits no_lifecycle (maybe_build_video (W := W) folder rate video_name wd).
Proof.
  unfold maybe_build_video, sort_by_mtime. emits_walk.
  - now apply mtime_keys_emits.
  - now apply rename_to_temp_emits.
  - now apply restore_names_emits.
Qed.

Lemma schedule_neutral a nshots driver :
  emits no_lifecycle (schedule (W := W) a nshots driver).
Proof. unfold schedule, tick. emits_walk. Qed.

Lemma neutral_counts t :
  forallb no_lifecycle t = true -> released t = [] /\ sessions t = [].
Proof.
  unfold released, sessions.
  induction t as [|e t IH]; simpl; [auto|].
  intros [He Ht]%andb_true_iff. specialize (IH Ht).
  destruct e; try discriminate; simpl; exact IH.
Qed.

Lemma released_app t1 t2 : released (t1 ++ t2) = released t1 ++ released t2.
Proof. apply omap_app. Qed.

Lemma sessions_app t1 t2 : sessions (t1 ++ t2) = sessions t1 ++ sessions t2.
Proof. apply omap_app. Qed.

Lemma neutral_balanced t : forallb no_lifecycle t = true -> balanced t.
Proof.
  intros [Q A]%neutral_counts. unfold balanced. rewrite Q, A. simpl.
  split; [reflexivity | lia].
Qed.

Lemma balanced_app_neutral_l t1 t2 :
  forallb no_lifecycle t1 = true -> balanced t2 -> balanced (t1 ++ t2).
Proof.
  intros [Q A]%neutral_counts B. unfold balanced in *.
  now rewrite released_app, sessions_app, Q, A.
Qed.

Lemma balanced_app_neutral_r t1 t2 :
  balanced t1 -> forallb no_lifecycle t2 = true -> balanced (t1 ++ t2).
Proof.
  intros B [Q A]%neutral_counts. unfold balanced in *.
  now rewrite released_app, sessions_app, Q, A, !app_nil_r.
Qed.

Lemma balanced_bind_l {A B} (m : M W A) (k : A -> M W B) :
  emits no_lifecycle m ->
  (forall a s, balanced (trace_of (k a s))) ->
  forall s, balanced (trace_of (bind m k s)).
Proof.
  intros Hm Hk s. specialize (Hm s). unfold bind, trace_of in *.
  destruct (m s) as [[[a|e] s1] t1]; simpl in *.
  - specialize (Hk a s1). destruct (k a s1) as [[r s2] t2]. simpl in *.
    now apply balanced_app_neutral_l.
  - now apply neutral_balanced.
Qed.

Lemma balanced_bind_r {A B} (m : M W A) (k : A -> M W B) :
  (forall s, balanced (trace_of (m s))) ->
  (forall a, emits no_lifecycle (k a)) ->
  forall s, balanced (trace_of (bind m k s)).
Proof.
  intros Hm Hk s. specialize (Hm s). unfold bind, trace_of in *.
  destruct (m s) as [[[a|e] s1] t1]; simpl in *; [|exact Hm].
  specialize (Hk a s1). unfold trace_of in Hk.
  destruct (k a s1) as [[r s2] t2]. simpl in *.
  now apply balanced_app_neutral_r.
Qed.

(** The bracket of [main]: acquisition, schedule, release. *)
Lemma bracket_balanced a nshots (s : state W) :
  balanced
    (trace_of
       ((driver <- new_driver (width a) (height a) ;;
         try_finally (schedule a nshots driver) (driver_quit driver)) s)).
Proof.
  unfold new_driver, webdriver_Chrome, set_page_load_timeout.
  unfold bind at 1. unfold bind at 1. unfold external at 1.
  destruct (chrome_start _ _ (ext s)) as [[d|e] w1];
    [|split; [reflexivity | simpl; lia]].
  unfold bind at 1. unfold external at 1. cbn [ext fs].
  destruct (chrome_set_page_load_timeout d 120 w1) as [[[]|e] w2];
    [|split; [reflexivity | simpl; lia]].
  unfold ret. cbn [app].
  unfold try_finally, driver_quit, external.
  pose proof (schedule_neutral a nshots d (State w2 (fs s))) as N.
  unfold trace_of in *.
  destruct (schedule a nshots d (State w2 (fs s))) as [[r s3] t3].
  cbn [snd] in N.
  destruct (chrome_quit d (ext s3)) as [rq w4].
  assert (B : balanced ([EvChrome (width a) (height a) (Ok d);
                         EvSetPageLoadTimeout d 120 (Ok tt)]
                        ++ t3 ++ [EvQuit d rq])).
  { apply neutral_counts in N as [Q A]. unfold balanced.
    rewrite !released_app, !sessions_app, Q, A. simpl. split; [reflexivity|lia]. }
  destruct rq as [[]|e]; simpl in *; exact B.
Qed.

Lemma main_balanced a (s : state W) : balanced (trace_of (main a s)).
Proof.
  unfold main. revert s.
  apply balanced_bind_l; [unfold ensure_out_dir; emits_walk|intros _].
  apply balanced_bind_l.
  { intros s. reflexivity. }
  intros nshots.
  do 5 (apply balanced_bind_l; [emits_walk|intros _]).
  apply balanced_bind_r; [apply bracket_balanced|intros _].
  apply emits_bind; [apply maybe_build_video_neutral|intros; apply emits_ret].
Qed.

End Lifecycle.

(** C3. Whatever the world does (captures failing, sleeps or browser calls
    interrupted, errors escaping the loop, the release itself failing), in
    the run of the script [driver.quit()] is called exactly once on each
    session [new_driver] has returned and on nothing else, and
    [new_driver] returns at most one session: one release when the session
    was acquired, none otherwise, on every way out. *)
Theorem session_released_once
    (W : Type) (world : World W) (a : args) (s : state W) :
  released (script a s).2 = sessions (script a s).2
  /\ (length (sessions (script a s).2) <= 1)%nat.
Proof.
  pose proof (main_balanced a s) as B. unfold script, trace_of in *.
  destruct (main a s) as [[[u|[detail|]] s1] t1]; simpl in *; try exact B.
  apply (balanced_app_neutral_r t1 [EvPrint MsgInterrupted] B). reflexivity.
Qed.

(** The three ways out of the loop, on the scripted world: the normal end,
    an error that escapes the loop, and the operator's interruption. *)
Example released_after_normal_end :
  let run := script demo_args (@boot flaky) in
  run.1.1 = 0 /\ sessions run.2 = [7%nat] /\ released run.2 = [7%nat].
Proof. vm_compute. auto. Qed.

Example released_after_escaping_error :
  let run := script demo_args (@boot broken_sleep) in
  run.1.1 = 1 /\ sessions run.2 = [7%nat] /\ released run.2 = [7%nat]
  /\ last run.2 = Some (EvQuit 7%nat (Ok tt)).
Proof. vm_compute. auto. Qed.

Example released_after_interruption :
  let run := script demo_args (@boot interrupted) in
  run.1.1 = 1 /\ sessions run.2 = [7%nat] /\ released run.2 = [7%nat]
  /\ last run.2 = Some (EvPrint MsgInterrupted).
Proof. vm_compute. auto. Qed.

(** When [new_driver] itself fails after the browser has started, [main]
    holds no session and releases none. *)
Example nothing_released_without_session :
  let run := script demo_args (@boot no_timeout) in
  run.1.1 = 1 /\ sessions run.2 = [] /\ released run.2 = []
  /\ last run.2
     = Some (EvSetPageLoadTimeout 7%nat 120 (Raise (Exception "no session"))).
Proof. vm_compute. auto. Qed.

(** ** Full-page capture and its fallback *)

Section Fallback.

Context {W : Type} {world : World W}.

(** Three statements in a row, then the rest. *)
Lemma bind_after_three {A B} (m1 m2 m3 : M W A) (k : A -> M W B) s :
  bind m1 (fun _ => bind m2 (fun _ => bind m3 k)) s
  = bind (bind m1 (fun _ => bind m2 (fun _ => m3))) k s.
Proof.
  unfold bind. destruct (m1 s) as [[[a1|e] s1] t1]; [|reflexivity].
  destruct (m2 s1) as [[[a2|e] s2] t2]; [|reflexivity].
  destruct (m3 s2) as [[[a3|e] s3] t3]; [|reflexivity].
  destruct (k a3 s3) as [[r s4] t4]. now rewrite !app_assoc.
Qed.

(** Each step of [fullpage_screenshot] that raises makes the function
    raise the same exception: the height query, [int(..)] of its value,
    the reading of the window width, the resize, the settle, the snapshot. *)
Lemma fullpage_screenshot_raises driver path (s : state W) e :
  (exists w, chrome_execute_script driver height_script (ext s) = (Raise e, w))
  \/ (exists w, chrome_execute_script driver height_script (ext s) = (Ok None, w)
        /\ e = Exception "int() argument must be a number")
  \/ (exists h w1 w2,
        chrome_execute_script driver height_script (ext s) = (Ok (Some h), w1)
        /\ chrome_window_width driver w1 = (Raise e, w2))
  \/ (exists h w1 x w2 w3,
        chrome_execute_script driver height_script (ext s) = (Ok (Some h), w1)
        /\ chrome_window_width driver w1 = (Ok x, w2)
        /\ chrome_set_window_size driver x (Z.min h 20000) w2 = (Raise e, w3))
  \/ (exists h w1 x w2 w3 w4,
        chrome_execute_script driver height_script (ext s) = (Ok (Some h), w1)
        /\ chrome_window_width driver w1 = (Ok x, w2)
        /\ chrome_set_window_size driver x (Z.min h 20000) w2 = (Ok tt, w3)
        /\ clock_sleep 500000 w3 = (Raise e, w4))
  \/ (exists h w1 x w2 w3 w4 w5,
        chrome_execute_script driver height_script (ext s) = (Ok (Some h), w1)
        /\ chrome_window_width driver w1 = (Ok x, w2)
        /\ chrome_set_window_size driver x (Z.min h 20000) w2 = (Ok tt, w3)
        /\ clock_sleep 500000 w3 = (Ok tt, w4)
        /\ chrome_screenshot driver w4 = (Raise e, w5)) ->
  result_of (fullpage_screenshot driver path s) = Raise e.
Proof.
  unfold fullpage_screenshot, execute_script, get_window_width,
    set_window_size, time_sleep, save_screenshot, external, bind, ret, raise,
    result_of.
  intros [(w & E)|[(w & E & ->)|[(h & w1 & w2 & E1 & E2)
         |[(h & w1 & x & w2 & w3 & E1 & E2 & E3)
         |[(h & w1 & x & w2 & w3 & w4 & E1 & E2 & E3 & E4)
         |(h & w1 & x & w2 & w3 & w4 & w5 & E1 & E2 & E3 & E4 & E5)]]]]];
    simpl;
    repeat match goal with
           | H : ?lhs = _ |- context [?lhs] => rewrite H; simpl
           end; reflexivity.
Qed.

(** C9. In full-page mode, once navigation, settle and scroll have gone
    through, an error raised by any step of [fullpage_screenshot] is
    caught and the viewport snapshot is taken in the state the failed
    attempt left (the window as it is then): the capture ends exactly as
    that snapshot ends.  When the snapshot succeeds the tick reports
    [done.], so the tick reports an error only if the fallback fails too. *)
Theorem fullpage_failure_falls_back
    (driver : handle) (u : string) (wait : Z) (path : string)
    (s s1 s2 : state W) (t1 t2 : list event) (detail : string) :
  (driver_get driver u ;;; time_sleep wait ;;; scroll_to_top driver) s
  = (Ok tt, s1, t1) ->
  fullpage_screenshot driver path s1 = (Raise (Exception detail), s2, t2) ->
  capture_once driver u wait true path s
  = (let '(r, s3, t3) := viewport_screenshot driver path s2 in
     (r, s3, t1 ++ t2 ++ t3))
  /\ (forall s3 t3,
        viewport_screenshot driver path s2 = (Ok tt, s3, t3) ->
        try_except
          (capture_once driver u wait true path ;;; print MsgDone)
          (fun e => print (MsgError e)) s
        = (Ok tt, s3, (t1 ++ t2 ++ t3) ++ [EvPrint MsgDone]))
  /\ (forall e s3 t3,
        capture_once driver u wait true path s = (Raise e, s3, t3) ->
        exists t3', viewport_screenshot driver path s2 = (Raise e, s3, t3')).
Proof.
  intros Hpre Hfull.
  assert (E : capture_once driver u wait true path s
              = (let '(r, s3, t3) := viewport_screenshot driver path s2 in
                 (r, s3, t1 ++ t2 ++ t3))).
  { unfold capture_once.
    rewrite bind_after_three, (bind_ok _ _ _ _ _ _ Hpre).
    unfold try_except. rewrite Hfull.
    destruct (viewport_screenshot driver path s2) as [[r s3] t3].
    reflexivity. }
  split; [exact E|]. split.
  - intros s3 t3 Hv. unfold try_except, bind at 1. rewrite E, Hv.
    reflexivity.
  - intros e s3 t3 Hc. rewrite E in Hc.
    destruct (viewport_screenshot driver path s2) as [[r s4] t4].
    injection Hc as -> -> _. eauto.
Qed.

End Fallback.

Lemma fullpage_failure_falls_back_witness :
  capture_once (W := sim no_resize) 7%nat "https://example.com" 3000000 true
    "./captures/f.png" boot
  = (Ok tt,
     State (Sim 7 4000000) {[ "./captures/f.png" := File 4000000 "png" ]},
     [ EvGet 7%nat "https://example.com" (Ok tt);
       EvSleep 3000000 (Ok tt);
       EvExecuteScript 7%nat "window.scrollTo(0, 0);" (Ok (Some 1500));
       EvExecuteScript 7%nat height_script (Ok (Some 1500));
       EvGetWindowSize 7%nat (Ok 1280);
       EvSetWindowSize 7%nat 1280 1500 (Raise (Exception "cannot resize"));
       EvSaveScreenshot 7%nat "./captures/f.png" (Ok true) ]).
Proof.
  refine (eq_trans
            (proj1 (fullpage_failure_falls_back (W := sim no_resize)
                      7%nat "https://example.com" 3000000 "./captures/f.png"
                      boot (State (Sim 3 4000000) ∅) (State (Sim 6 4000000) ∅)
                      _ _ "cannot resize" _ _)) _);
    vm_compute; reflexivity.
Defined.

(** ** The number of ticks *)

Example round_div_cases :
  round_div 100 30 = 3 /\ round_div 5 2 = 2 /\ round_div 7 2 = 4
  /\ round_div (-5) 2 = -2 /\ round_div 10 30 = 0 /\ round_div 100 (-30) = -3.
Proof. repeat split. Qed.

Example nshots_from_duration :
  compute_nshots
    {| url := ""; out := ""; interval := 30; ticks := Duration 100;
       width := 1280; height := 800; fullpage := false; load_wait := 0;
       fps := 12; video := "" |}
  = Ok 3.
Proof. reflexivity. Qed.

Lemma round_div_nearest (a b : Z) :
  b <> 0 ->
  2 * Z.abs (a - b * round_div a b) <= Z.abs b
  /\ (2 * Z.abs (a - b * round_div a b) = Z.abs b ->
      Z.even (round_div a b) = true).
Proof.
  intros Hb. unfold round_div.
  pose proof (Z.div_mod a b Hb) as Hdm.
  pose proof (Z.mod_pos_bound a b) as Hpos.
  pose proof (Z.mod_neg_bound a b) as Hneg.
  set (q0 := a / b) in *. set (r := a mod b) in *.
  destruct (Z.compare_spec (2 * Z.abs r) (Z.abs b)) as [E|L|G].
  - destruct (Z.even q0) eqn:Ev.
    + split; [lia | auto].
    + split; [lia|]. intros _.
      rewrite Z.even_add, Ev. reflexivity.
  - split; lia.
  - split; lia.
Qed.

Lemma round_div_unique (a b q : Z) :
  0 < b ->
  2 * Z.abs (a - b * q) < b
  \/ (2 * Z.abs (a - b * q) = b /\ Z.even q = true) ->
  round_div a b = q.
Proof.
  intros Hb Hq.
  destruct (round_div_nearest a b ltac:(lia)) as [Hn He].
  set (q' := round_div a b) in *.
  assert (Hd : -1 <= q' - q <= 1) by nia.
  assert (C : q' = q \/ q' = q + 1 \/ q' = q - 1) by lia.
  destruct C as [C|[C|C]]; [exact C| |]; exfalso.
  - assert (T1 : 2 * Z.abs (a - b * q') = Z.abs b) by nia.
    assert (T2 : 2 * Z.abs (a - b * q) = b) by nia.
    specialize (He T1). destruct Hq as [Hq|[_ Hq]]; [lia|].
    rewrite C, Z.even_add, Hq in He. discriminate.
  - assert (T1 : 2 * Z.abs (a - b * q') = Z.abs b) by nia.
    assert (T2 : 2 * Z.abs (a - b * q) = b) by nia.
    specialize (He T1). destruct Hq as [Hq|[_ Hq]]; [lia|].
    rewrite C, Z.even_sub, Hq in He. discriminate.
Qed.

(** Rounding to a grid of [1 / P] first does not change the nearest
    integer when the grid is finer than [1 / d]. *)
Lemma round_div_twice (n d P P' : Z) :
  0 < d < P -> P = 2 * P' ->
  round_div (round_div (n * P) d) P = round_div n d.
Proof.
  intros Hd HP.
  destruct (round_div_nearest n d ltac:(lia)) as [Hn He].
  set (q := round_div n d) in *.
  destruct (Z.eq_dec (2 * Z.abs (n - d * q)) d) as [T|T].
  - assert (Hm : round_div (n * P) d = q * P + (if 0 <=? n - d * q then P' else - P')).
    { apply round_div_unique; [lia|]. left.
      destruct (Z.leb_spec 0 (n - d * q)); nia. }
    rewrite Hm. apply round_div_unique; [lia|]. right.
    split; [|apply He; lia].
    destruct (Z.leb_spec 0 (n - d * q)); nia.
  - destruct (round_div_nearest (n * P) d ltac:(lia)) as [Hm _].
    set (m := round_div (n * P) d) in *.
    apply round_div_unique; [lia|]. left.
    assert (H1 : 2 * Z.abs (n - d * q) <= d - 1) by lia.
    assert (H2 : 2 * d * Z.abs (m - P * q) < d * P).
    { assert (Z.abs (d * (m - P * q))
              <= Z.abs (n * P - d * m) + Z.abs (P * (n - d * q))).
      { replace (d * (m - P * q)) with (- (n * P - d * m) + P * (n - d * q)) by ring.
        etransitivity; [apply Z.abs_triangle|]. rewrite Z.abs_opp. lia. }
      rewrite Z.abs_mul in H. rewrite (Z.abs_mul P) in H.
      rewrite (Z.abs_eq d) in H by lia. rewrite (Z.abs_eq P) in H by lia.
      nia. }
    nia.
Qed.

Lemma round_div_bounds (a b : Z) : 0 <= a -> 1 <= b -> 0 <= round_div a b <= a.
Proof.
  intros Ha Hb. destruct (round_div_nearest a b ltac:(lia)) as [Hn _].
  set (q := round_div a b) in *. split; nia.
Qed.

Lemma quotient_exponent_le (n d : Z) :
  quotient_exponent n d <= Z.log2 n - Z.log2 d.
Proof.
  unfold quotient_exponent. cbv zeta.
  repeat match goal with
         | |- context [if ?c then _ else _] => destruct c
         end; lia.
Qed.

(** Below [2 ^ 52] the float quotient rounds to the same integer as the
    exact one. *)
Lemma true_divide_small (n d : Z) :
  0 <= n < 2 ^ 52 -> 0 < d < 2 ^ 52 ->
  exists x, true_divide n d = Ok x /\ round_float x = round_div n d.
Proof.
  intros Hn Hd. unfold true_divide.
  destruct (Z.eqb_spec d 0); [lia|].
  destruct (Z.eqb_spec n 0) as [->|Hn0].
  { exists (0, 0). split; [reflexivity|]. change (round_float (0, 0)) with 0.
    symmetry. apply round_div_unique; [lia | left; lia]. }
  rewrite (Z.abs_eq n), (Z.abs_eq d) by lia.
  pose proof (quotient_exponent_le n d) as HE.
  assert (Hln : 0 <= Z.log2 n <= 51).
  { split; [apply Z.log2_nonneg|].
    assert (Z.log2 n < 52) by (apply Z.log2_lt_pow2; lia). lia. }
  assert (Hld : 0 <= Z.log2 d) by apply Z.log2_nonneg.
  set (u := Z.max (quotient_exponent n d - 52) (-1074)).
  assert (Hu : -1074 <= u < 0) by lia.
  destruct (Z.leb_spec 0 u); [lia|].
  set (P := 2 ^ (- u)).
  assert (HdP : d < P).
  { destruct (Z.le_ge_cases (quotient_exponent n d - 52) (-1074)).
    - assert (u = -1074) by lia.
      apply Z.lt_le_trans with (2 ^ 52); [lia|].
      unfold P. apply Z.pow_le_mono_r; lia.
    - assert (u = quotient_exponent n d - 52) by lia.
      apply Z.lt_le_trans with (2 ^ (Z.log2 d + 1)).
      + replace (Z.log2 d + 1) with (Z.succ (Z.log2 d)) by lia.
        apply Z.log2_spec. lia.
      + unfold P. apply Z.pow_le_mono_r; lia. }
  assert (HP : P = 2 * 2 ^ (- u - 1)).
  { unfold P. replace (- u) with (Z.succ (- u - 1)) at 1 by lia.
    apply Z.pow_succ_r. lia. }
  assert (HP0 : 0 < P) by (unfold P; apply Z.pow_pos_nonneg; lia).
  set (m := round_div (n * P) d).
  destruct (round_div_bounds (n * P) d ltac:(nia) ltac:(lia)) as [Hm0 Hm].
  fold m in Hm0, Hm.
  assert (Hlog : Z.log2 (Z.abs m) + u < 1024).
  { rewrite Z.abs_eq by lia.
    assert (Z.log2 m <= Z.log2 (n * P)) by (apply Z.log2_le_mono; lia).
    assert (Z.log2 (n * P) = - u + Z.log2 n).
    { unfold P. apply Z.log2_mul_pow2; lia. }
    lia. }
  destruct (Z.leb_spec 1024 (Z.log2 (Z.abs m) + u)); [lia|].
  exists (m, u). split; [reflexivity|].
  unfold round_float. destruct (Z.leb_spec 0 u); [lia|].
  fold P. unfold m. apply (round_div_twice n d P (2 ^ (- u - 1))); lia.
Qed.

Lemma compute_nshots_small (a : args) (secs : Z) :
  ticks a = Duration secs ->
  0 <= secs < 2 ^ 52 -> 0 < interval a < 2 ^ 52 ->
  compute_nshots a = Ok (Z.max 1 (round_div secs (interval a))).
Proof.
  intros Ht Hs Hi. unfold compute_nshots. rewrite Ht.
  destruct (true_divide_small secs (interval a) Hs Hi) as (x & -> & ->).
  reflexivity.
Qed.

Lemma compute_nshots_floor (a : args) (secs k : Z) :
  ticks a = Duration secs -> compute_nshots a = Ok k -> 1 <= k.
Proof.
  intros Ht. unfold compute_nshots. rewrite Ht.
  destruct (true_divide secs (interval a)) as [x|e]; [|discriminate].
  intros [= <-]. lia.
Qed.

(** [true_divide] against the Standard Library's binary64 division, on
    quotients that are exact, rounded, half-way, carried to the next
    binade, negative, subnormal, zero and out of range. *)
Example true_divide_matches_SpecFloat :
  forallb (fun '(a, b) => same_float (true_divide a b) (spec_true_divide a b))
    [ (105, 30); (100, 30); (1, 3); (-1, 3); (7, -2); (-7, -2); (0, 5);
      (2 ^ 53 + 1, 1); (2 ^ 54 + 2, 1); (2 ^ 54 - 1, 1);
      (5 * 2 ^ 50 + 3, 2 ^ 51 + 1); (10 ^ 400, 10 ^ 399); (10 ^ 400, 1);
      (2 ^ 1024 - 2 ^ 970, 1); (2 ^ 1024 - 2 ^ 970 - 1, 1);
      (3, 2 ^ 1075); (1, 2 ^ 1075); (1, 10 ^ 400); (-3, 2 ^ 1074);
      (86400, 7); (31536000, 300); (2 ^ 52 - 1, 2 ^ 52 - 3) ]
  = true.
Proof. vm_compute. reflexivity. Qed.

(** Where the float shows: above [2 ^ 53] the quotient is no longer the
    duration, half-way cases can round the other way, and a quotient
    beyond the range of a float is an error. *)
Example nshots_beyond_float_precision :
  compute_nshots
    {| url := ""; out := ""; interval := 1; ticks := Duration (2 ^ 53 + 1);
       width := 1280; height := 800; fullpage := false; load_wait := 0;
       fps := 12; video := "" |}
  = Ok (2 ^ 53)
  /\ compute_nshots
       {| url := ""; out := ""; interval := 2 ^ 51 + 1;
          ticks := Duration (5 * 2 ^ 50 + 3);
          width := 1280; height := 800; fullpage := false; load_wait := 0;
          fps := 12; video := "" |}
     = Ok 2
  /\ round_div (5 * 2 ^ 50 + 3) (2 ^ 51 + 1) = 3
  /\ compute_nshots
       {| url := ""; out := ""; interval := 1; ticks := Duration (10 ^ 400);
          width := 1280; height := 800; fullpage := false; load_wait := 0;
          fps := 12; video := "" |}
     = Raise (Exception "integer division result too large for a float").
Proof. repeat split; vm_compute; reflexivity. Qed.

Lemma range_nonpositive (n : Z) : n <= 0 -> range n = [].
Proof. intros H. unfold range. now replace (Z.to_nat n) with 0%nat by lia. Qed.

Lemma external_keeps_files {W A} (op : W -> result A * W) ev
    (s s' : state W) r t :
  external op ev s = (r, s', t) -> fs s' = fs s.
Proof.
  unfold external. destruct (op (ext s)) as [r0 w]. now intros [= _ <- _].
Qed.

Lemma new_driver_keeps_files {W} {world : World W} wd ht
    (s s' : state W) r t :
  new_driver wd ht s = (r, s', t) -> fs s' = fs s.
Proof.
  unfold new_driver, webdriver_Chrome, set_page_load_timeout, bind, ret, external.
  destruct (chrome_start wd ht (ext s)) as [[d|e] w1]; cbn [ext fs].
  - destruct (chrome_set_page_load_timeout d 120 w1) as [[[]|e] w2];
      now intros [= _ <- _].
  - now intros [= _ <- _].
Qed.

(** C10. An explicit shot count is taken as it is, while a count derived
    from a duration is at least one whenever the division returns one, as
    it does for every duration and interval below [2 ^ 52] seconds.  With [--shots n] and [n <= 0], once
    the output folder and the browser session are there and provided the
    release succeeds, [main] reads the clock twice, prints its summary,
    releases the session and goes on to [maybe_build_video]: no tick is
    announced, no page is loaded, no file is written or raised error seen
    before the assembly starts, on the files the run started with. *)
Theorem nonpositive_shots_skip_capture
    (W : Type) (world : World W) (a : args) (n : Z) (driver : handle)
    (s s1 s2 : state W) (t1 t2 : list event) :
  ticks a = Shots n ->
  n <= 0 ->
  ensure_out_dir (out a) s = (Ok tt, s1, t1) ->
  new_driver (width a) (height a) s1 = (Ok driver, s2, t2) ->
  (forall s', result_of (driver_quit driver s') = Ok tt) ->
  compute_nshots a = Ok n
  /\ (forall a' secs k,
        ticks a' = Duration secs -> compute_nshots a' = Ok k -> 1 <= k)
  /\ (forall a' secs,
        ticks a' = Duration secs ->
        0 <= secs < 2 ^ 52 -> 0 < interval a' < 2 ^ 52 ->
        exists k, compute_nshots a' = Ok k /\ 1 <= k)
  /\ exists start finish s3,
       fs s3 = fs s
       /\ main a s
          = (let '(r, s', t') :=
               maybe_build_video (out a) (fps a) (video a) (width a) s3 in
             (match r with Ok _ => Ok tt | Raise e => Raise e end, s',
              t1
              ++ [ EvPrint (MsgUrl (url a));
                   EvPrint (MsgOutputFolder (out a));
                   EvPrint (MsgPlan (interval a) n (fullpage a));
                   EvPrint (MsgViewport (width a) (height a) (load_wait a));
                   EvPrint (MsgVideoPlan (fps a) (video a)) ]
              ++ t2
              ++ [ EvNow start; EvNow finish;
                   EvPrint (MsgFinished n (finish - start));
                   EvQuit driver (Ok tt) ]
              ++ t')).
Proof.
  intros Hticks Hn Hdir Hdrv Hquit.
  assert (Hc : compute_nshots a = Ok n) by (unfold compute_nshots; now rewrite Hticks).
  split; [exact Hc|]. split; [exact compute_nshots_floor|]. split.
  { intros a' secs Ht Hs Hi. eexists.
    split; [exact (compute_nshots_small a' secs Ht Hs Hi) | lia]. }
  destruct (clock_now (ext s2)) as [start w3] eqn:E1.
  destruct (clock_now w3) as [finish w4] eqn:E2.
  destruct (chrome_quit driver w4) as [rq w5] eqn:E3.
  assert (rq = Ok tt) as ->.
  { specialize (Hquit (State w4 (fs s2))).
    unfold driver_quit, external, result_of in Hquit. cbn [ext] in Hquit.
    now rewrite E3 in Hquit. }
  exists start, finish, (State w5 (fs s2)). split.
  { cbn [fs]. rewrite (new_driver_keeps_files _ _ _ _ _ _ Hdrv).
    exact (external_keeps_files _ _ _ _ _ _ Hdir). }
  unfold main. rewrite (bind_ok _ _ _ _ _ _ Hdir).
  unfold bind at 1, lift at 1. rewrite Hc. cbn [app].
  unfold bind at 1, print at 1. unfold bind at 1, print at 1.
  unfold bind at 1, print at 1. unfold bind at 1, print at 1.
  unfold bind at 1, print at 1.
  unfold bind at 1. unfold bind at 1. rewrite Hdrv.
  unfold try_finally, schedule. rewrite (range_nonpositive n Hn).
  unfold bind at 1, datetime_now at 1. rewrite E1.
  unfold for_each, bind at 1, ret at 1.
  unfold bind at 1, datetime_now at 1. cbn [ext fs]. rewrite E2.
  unfold print at 1. unfold driver_quit, external. cbn [ext fs]. rewrite E3.
  unfold bind, ret.
  destruct (maybe_build_video _ _ _ _ _) as [[[b|e] s'] t']; cbn [app];
    rewrite ?app_nil_r, <- ?app_assoc; reflexivity.
Qed.

Lemma nonpositive_shots_skip_capture_witness :
  compute_nshots idle_args = Ok (-2)
  /\ printed (trace_of (main idle_args (@boot flaky)))
     = [ MsgUrl "https://example.com"; MsgOutputFolder "./captures";
         MsgPlan 10 (-2) false; MsgViewport 1280 800 3000000;
         MsgVideoPlan 12 "timelapse.mp4"; MsgFinished (-2) 1; MsgNoFrames ].
Proof.
  split; [|vm_compute; reflexivity].
  refine (proj1 (nonpositive_shots_skip_capture (sim flaky) _ idle_args (-2)
                   7%nat boot _ _ _ _ eq_refl _ _ _ _)).
  - lia.
  - vm_compute; reflexivity.
  - vm_compute; reflexivity.
  - intros s'. reflexivity.
Defined.

(** ** Renaming in bulk *)

Lemma rename_all_cons src dst moves (m : gmap string file) :
  rename_all ((src, dst) :: moves) m = rename_all moves (rename_one m src dst).
Proof. reflexivity. Qed.

Lemma rename_one_lookup (m : gmap string file) src dst f p :
  m !! src = Some f -> src <> dst ->
  rename_one m src dst !! p
  = if decide (p = dst) then Some f
    else if decide (p = src) then None else m !! p.
Proof.
  intros Hsrc Hne. unfold rename_one. rewrite Hsrc.
  destruct (decide (p = dst)) as [->|Hd].
  - apply lookup_insert_eq.
  - rewrite lookup_insert_ne by congruence.
    destruct (decide (p = src)) as [->|Hs].
    + apply lookup_delete_eq.
    + apply lookup_delete_ne. congruence.
Qed.

(** Moving distinct, existing sources to distinct destinations that are
    not sources: every destination receives its source's file, every
    source is gone, every other path is untouched. *)
Lemma rename_all_lookup (moves : list (string * string)) :
  forall m : gmap string file,
    NoDup moves.*1 -> NoDup moves.*2 ->
    (forall x, x ∈ moves.*1 -> x ∉ moves.*2) ->
    (forall x, x ∈ moves.*1 -> is_Some (m !! x)) ->
    (forall src dst, (src, dst) ∈ moves -> rename_all moves m !! dst = m !! src)
    /\ (forall src, src ∈ moves.*1 -> rename_all moves m !! src = None)
    /\ (forall p, p ∉ moves.*1 -> p ∉ moves.*2 -> rename_all moves m !! p = m !! p).
Proof.
  induction moves as [|[a b] moves IH]; intros m Hs Hd Hdisj Hpres.
  - split; [|split];
      [intros ? ? H; inversion H | intros ? H; inversion H | reflexivity].
  - cbn [fmap list_fmap fst snd] in *.
    apply NoDup_cons in Hs as [Ha Hs]. apply NoDup_cons in Hd as [Hb Hd].
    destruct (Hpres a) as [f Hf]; [left|].
    assert (Hab : a <> b).
    { intros ->. apply (Hdisj b); left. }
    assert (Hin : forall x, x ∈ moves.*1 -> x <> a /\ x <> b).
    { intros x Hx. split; intros ->; [contradiction|].
      apply (Hdisj b); [now right | left]. }
    assert (Hin2 : forall x, x ∈ moves.*2 -> x <> a /\ x <> b).
    { intros x Hx. split; intros ->; [|contradiction].
      apply (Hdisj a); [left | now right]. }
    assert (Hb1 : b ∉ moves.*1).
    { intros H. apply (Hdisj b); [now right | left]. }
    assert (Ha2 : a ∉ moves.*2).
    { intros H. apply (Hdisj a); [left | now right]. }
    destruct (IH (rename_one m a b) Hs Hd) as (I1 & I2 & I3).
    { intros x Hx Hx'. apply (Hdisj x); now right. }
    { intros x Hx. destruct (Hin x Hx) as [? ?].
      rewrite (rename_one_lookup m a b f x Hf Hab).
      rewrite !decide_False by assumption. apply Hpres. now right. }
    rewrite rename_all_cons. split; [|split].
    + intros src dst [[= -> ->]|H]%elem_of_cons.
      * rewrite I3 by assumption.
        rewrite (rename_one_lookup m a b f b Hf Hab).
        now rewrite decide_True.
      * rewrite (I1 src dst H).
        assert (Hsrc : src ∈ moves.*1).
        { apply list_elem_of_fmap. now exists (src, dst). }
        destruct (Hin src Hsrc) as [? ?].
        rewrite (rename_one_lookup m a b f src Hf Hab).
        now rewrite !decide_False.
    + intros src [->|H]%elem_of_cons.
      * rewrite I3 by assumption.
        rewrite (rename_one_lookup m a b f a Hf Hab).
        rewrite decide_False by assumption. now rewrite decide_True.
      * now apply I2.
    + intros p [Hpa Hp1]%not_elem_of_cons [Hpb Hp2]%not_elem_of_cons.
      rewrite I3 by assumption.
      rewrite (rename_one_lookup m a b f p Hf Hab).
      now rewrite !decide_False.
Qed.

Lemma temp_pairs_fst folder i files : (temp_pairs folder i files).*1 = files.
Proof.
  revert i. induction files as [|f files IH]; intros i; simpl; [reflexivity|].
  now rewrite IH.
Qed.

Lemma temp_pairs_lookup folder files :
  forall i k f,
    files !! k = Some f ->
    temp_pairs folder i files !! k = Some (f, temp_name folder (i + Z.of_nat k)).
Proof.
  induction files as [|f0 files IH]; intros i k f; [inversion 1|].
  destruct k as [|k]; simpl.
  - intros [= ->]. now rewrite Z.add_0_r.
  - intros H. rewrite (IH (i + 1) k f H). do 3 f_equal. lia.
Qed.

Lemma temp_pairs_snd_elem folder files :
  forall i t,
    t ∈ (temp_pairs folder i files).*2 <->
    exists k, (k < length files)%nat /\ t = temp_name folder (i + Z.of_nat k).
Proof.
  induction files as [|f0 files IH]; intros i t; simpl.
  - split; [inversion 1 | intros (k & Hk & _); lia].
  - rewrite elem_of_cons, IH. split.
    + intros [->|(k & Hk & ->)].
      * exists 0%nat. split; [lia|]. now rewrite Z.add_0_r.
      * exists (S k). split; [lia|]. f_equal. lia.
    + intros ([|k] & Hk & ->).
      * left. now rewrite Z.add_0_r.
      * right. exists k. split; [lia|]. f_equal. lia.
Qed.

Lemma temp_pairs_snd_NoDup folder files :
  forall i, 0 <= i -> NoDup (temp_pairs folder i files).*2.
Proof.
  induction files as [|f0 files IH]; intros i Hi; simpl; [constructor|].
  apply NoDup_cons. split; [|apply IH; lia].
  intros (k & Hk & E)%temp_pairs_snd_elem.
  apply temp_name_inj in E; lia.
Qed.

(** ** The assembly, step by step *)

Section Assembly.

Context {W : Type} {world : World W}.

Lemma glob_star_run folder (s : state W) :
  glob_star (Text.os_path_join folder "screenshot_") ".png" s
  = (Ok (globbed_in folder (fs s)), s,
     [EvGlob (Text.os_path_join folder "screenshot_") ".png"
             (globbed_in folder (fs s))]).
Proof. reflexivity. Qed.

Lemma globbed_elem (Hscan : ScanLaw W) folder (files : gmap string file) p :
  p ∈ globbed_in folder files <->
  matches_star (Text.os_path_join folder "screenshot_") ".png" p = true
  /\ is_Some (files !! p).
Proof.
  unfold globbed_in. rewrite list_elem_of_filter, (Hscan _).
  rewrite list_elem_of_fmap. split; intros [Hm Hp]; (split; [exact Hm|]).
  - destruct Hp as ([k f] & -> & Hkf). apply elem_of_map_to_list in Hkf. eauto.
  - destruct Hp as [f Hf]. exists (p, f). split; [reflexivity|].
    now apply elem_of_map_to_list.
Qed.

Lemma globbed_NoDup (Hscan : ScanLaw W) folder (files : gmap string file) :
  NoDup (globbed_in folder files).
Proof.
  unfold globbed_in. apply NoDup_filter. rewrite (Hscan _).
  apply NoDup_fst_map_to_list.
Qed.

Lemma globbed_frame_paths (Hscan : ScanLaw W) folder (files : gmap string file) :
  globbed_in folder files ≡ₚ frame_paths folder files.
Proof.
  apply NoDup_Permutation.
  - now apply globbed_NoDup.
  - apply NoDup_filter, NoDup_fst_map_to_list.
  - intros p. rewrite (globbed_elem Hscan). unfold frame_paths.
    rewrite list_elem_of_filter, list_elem_of_fmap.
    split; intros [Hm Hp]; (split; [exact Hm|]).
    + destruct Hp as [f Hf]. exists (p, f). split; [reflexivity|].
      now apply elem_of_map_to_list.
    + destruct Hp as ([k f] & -> & Hkf). apply elem_of_map_to_list in Hkf. eauto.
Qed.

Lemma mtime_keys_run (files : list string) (s : state W) :
  (forall p, p ∈ files -> is_Some (fs s !! p)) ->
  mtime_keys files s
  = (Ok ((fun p => (mtime_in (fs s) p, p)) <$> files), s,
     (fun p => EvGetmtime p (Ok (mtime_in (fs s) p))) <$> files).
Proof.
  induction files as [|f files IH]; intros Hp; [reflexivity|].
  cbn [mtime_keys]. unfold bind at 1, os_path_getmtime at 1.
  destruct (Hp f) as [x Hx]; [left|].
  assert (E : mtime_in (fs s) f = mtime x) by (unfold mtime_in; now rewrite Hx).
  rewrite Hx.
  rewrite (bind_ok _ _ _ _ _ _ (IH (fun p H => Hp p (list_elem_of_further _ _ _ H)))).
  unfold ret. cbn [fmap list_fmap]. rewrite E, app_nil_r. reflexivity.
Qed.

Lemma insert_by_key_perm x l : insert_by_key x l ≡ₚ x :: l.
Proof.
  induction l as [|y l IH]; simpl; [reflexivity|].
  destruct (x.1 <=? y.1); [reflexivity|].
  rewrite IH. apply Permutation_swap.
Qed.

Lemma sort_by_key_perm l : sort_by_key l ≡ₚ l.
Proof.
  induction l as [|x l IH]; simpl; [reflexivity|].
  now rewrite insert_by_key_perm, IH.
Qed.




Lemma sorted_frames_perm folder (files : gmap string file) :
  sorted_frames folder files ≡ₚ globbed_in folder files.
Proof.
  unfold sorted_frames. rewrite sort_by_key_perm.
  rewrite <- list_fmap_compose. simpl.
  now rewrite list_fmap_id.
Qed.



End Assembly.

(** ** The pipeline around the encoder *)

Section Pipeline.

Context {W : Type} {world : World W}.

Lemma os_rename_present (s : state W) src dst f :
  fs s !! src = Some f ->
  os_rename src dst s
  = (Ok tt, State (ext s) (rename_one (fs s) src dst),
     [EvRename src dst (Ok tt)]).
Proof. intros H. unfold os_rename, rename_one. now rewrite H. Qed.

Lemma rename_to_temp_run folder (files : list string) :
  forall i (s : state W),
    NoDup files ->
    (forall f, f ∈ files -> is_Some (fs s !! f)) ->
    (forall f j, f ∈ files -> f <> temp_name folder j) ->
    rename_to_temp folder i files s
    = (Ok (temp_pairs folder i files),
       State (ext s) (rename_all (temp_pairs folder i files) (fs s)),
       rename_events (temp_pairs folder i files)).
Proof.
  induction files as [|f files IH]; intros i s Hnd Hpres Htemp.
  - now destruct s.
  - apply NoDup_cons in Hnd as [Hf Hnd].
    destruct (Hpres f) as [x Hx]; [left|].
    cbn [rename_to_temp temp_pairs].
    rewrite (bind_ok _ _ _ _ _ _ (os_rename_present s f _ x Hx)).
    assert (Hrest : forall g, g ∈ files ->
              is_Some (rename_one (fs s) f (temp_name folder i) !! g)).
    { intros g Hg.
      rewrite (rename_one_lookup (fs s) f _ x g Hx) by (apply Htemp; left).
      rewrite decide_False by (apply Htemp; now right).
      rewrite decide_False by (intros ->; contradiction).
      apply Hpres. now right. }
    rewrite (bind_ok _ _ _ _ _ _
               (IH (i + 1) (State (ext s) (rename_one (fs s) f (temp_name folder i)))
                   Hnd Hrest
                   (fun g j H => Htemp g j (list_elem_of_further _ _ _ H)))).
    unfold ret. cbn [ext fs]. rewrite app_nil_r. reflexivity.
Qed.

(** The restoration loop always reaches its end: each pair is attempted
    in turn, a failed rename changes nothing and says nothing. *)
Lemma restore_names_run (temp_files : list (string * string)) :
  forall s : state W,
    exists t,
      restore_names temp_files s
      = (Ok tt,
         State (ext s) (rename_all (swap_pair <$> temp_files) (fs s)), t)
      /\ printed t = []
      /\ Forall2 (fun pair '(src, dst, r) => src = pair.2 /\ dst = pair.1)
                 temp_files (renamed t)
      /\ forallb (fun e => match e with EvRename _ _ _ => true | _ => false end)
                 t = true.
Proof.
  induction temp_files as [|[o tp] rest IH]; intros s.
  - exists []. destruct s. repeat split. constructor.
  - cbn [restore_names].
    change (swap_pair <$> (o, tp) :: rest)
      with ((tp, o) :: (swap_pair <$> rest)).
    rewrite rename_all_cons.
    destruct (IH (State (ext s) (rename_one (fs s) tp o)))
      as (t & E & Hp & Hr & Hall).
    unfold rename_one in *.
    unfold bind, try_except_all, os_rename, ret.
    destruct (fs s !! tp) as [f|] eqn:Hf; cbn [ext fs] in *.
    + rewrite E. eexists. split; [reflexivity|].
      split; [exact Hp|]. split; [|exact Hall].
      unfold renamed. cbn. constructor; [auto|exact Hr].
    + replace (State (ext s) (fs s)) with s in E by now destruct s.
      rewrite E. eexists. split; [reflexivity|].
      split; [exact Hp|]. split; [|exact Hall].
      unfold renamed. cbn. constructor; [auto|exact Hr].
Qed.

End Pipeline.

Section Runs.

Context {W : Type} {world : World W}.

Lemma sorted_frames_ready (Hscan : ScanLaw W) folder (s : state W) :
  NoDup (sorted_frames folder (fs s))
  /\ (forall f, f ∈ sorted_frames folder (fs s) -> is_Some (fs s !! f))
  /\ (forall f j, f ∈ sorted_frames folder (fs s) -> f <> temp_name folder j).
Proof.
  split; [|split].
  - rewrite sorted_frames_perm. now apply globbed_NoDup.
  - intros f Hf. rewrite sorted_frames_perm in Hf.
    now apply (globbed_elem Hscan) in Hf as [_ ?].
  - intros f j Hf. rewrite sorted_frames_perm in Hf.
    apply (globbed_elem Hscan) in Hf as [Hm _].
    now apply matches_star_not_temp.
Qed.

Lemma sort_by_mtime_run (Hscan : ScanLaw W) folder (s : state W) :
  sort_by_mtime (globbed_in folder (fs s)) s
  = (Ok (sorted_frames folder (fs s)), s,
     (fun p => EvGetmtime p (Ok (mtime_in (fs s) p)))
       <$> globbed_in folder (fs s)).
Proof.
  unfold sort_by_mtime.
  rewrite (bind_ok _ _ _ _ _ _
             (mtime_keys_run (globbed_in folder (fs s)) s
                (fun p H => proj2 (proj1 (globbed_elem Hscan folder (fs s) p) H)))).
  unfold ret, sorted_frames. now rewrite app_nil_r.
Qed.

(** The run of [maybe_build_video] when the encoder is installed. *)
Lemma maybe_build_video_run (Hscan : ScanLaw W) folder rate video_name wd
    (s : state W) :
  path_which "ffmpeg" (ext s) = true ->
  let frames := sorted_frames folder (fs s) in
  let moves := temp_pairs folder 0 frames in
  let cmd := ffmpeg_cmd folder rate video_name wd in
  (frames = []
   /\ maybe_build_video folder rate video_name wd s
      = (Ok false, s, assembly_head folder (fs s) ++ [EvPrint MsgNoFrames]))
  \/ (frames <> []
      /\ exists r files' w',
           encoder_run cmd (rename_all moves (fs s)) (ext s) = (r, files', w')
           /\ match r with
              | Raise e =>
                  maybe_build_video folder rate video_name wd s
                  = (Raise e, State w' files',
                     assembly_head folder (fs s) ++ rename_events moves
                     ++ [EvPrint MsgBuilding; EvRun cmd (Raise e)])
              | Ok res =>
                  exists t,
                    restore_names moves (State w' files')
                    = (Ok tt,
                       State w' (rename_all (swap_pair <$> moves) files'), t)
                    /\ maybe_build_video folder rate video_name wd s
                       = (Ok (res.1 =? 0),
                          State w' (rename_all (swap_pair <$> moves) files'),
                          assembly_head folder (fs s) ++ rename_events moves
                          ++ [EvPrint MsgBuilding; EvRun cmd (Ok res)] ++ t
                          ++ [EvPrint
                                (if res.1 =? 0
                                 then MsgSaved
                                        (Text.os_path_join folder video_name)
                                 else MsgFfmpegFailed res.2)])
              end).
Proof.
  intros Hwhich. cbv zeta.
  destruct (sorted_frames_ready Hscan folder s) as (Hnd & Hpres & Htemp).
  remember (maybe_build_video folder rate video_name wd s) as run eqn:Hrun.
  unfold maybe_build_video in Hrun.
  unfold bind at 1, shutil_which at 1 in Hrun. rewrite Hwhich in Hrun.
  cbn [negb] in Hrun.
  rewrite (bind_ok _ _ _ _ _ _ (glob_star_run folder s)) in Hrun.
  rewrite (bind_ok _ _ _ _ _ _ (sort_by_mtime_run Hscan folder s)) in Hrun.
  fold (assembly_head folder (fs s)) in Hrun.
  remember (sorted_frames folder (fs s)) as frames eqn:Hframes.
  destruct frames as [|f0 rest].
  - left. split; [reflexivity|]. subst run. unfold bind, print, ret.
    cbn [app]. unfold assembly_head.
    rewrite ?app_nil_r, <- ?app_assoc. reflexivity.
  - right. split; [discriminate|].
    rewrite (bind_ok _ _ _ _ _ _
               (rename_to_temp_run folder (f0 :: rest) 0 s Hnd Hpres Htemp))
      in Hrun.
    set (moves := temp_pairs folder 0 (f0 :: rest)) in *.
    set (cmd := ffmpeg_cmd folder rate video_name wd) in *.
    unfold bind at 1, print at 1 in Hrun.
    unfold bind at 1, subprocess_run at 1 in Hrun. cbn [ext fs] in Hrun.
    destruct (encoder_run cmd (rename_all moves (fs s)) (ext s))
      as [[r files'] w'] eqn:Henc.
    exists r, files', w'. split; [reflexivity|].
    destruct r as [res|e].
    + destruct (restore_names_run moves (State w' files'))
        as (t & Hrest & _).
      exists t. split; [exact Hrest|].
      rewrite (bind_ok _ _ _ _ _ _ Hrest) in Hrun. subst run.
      unfold assembly_head. cbn [ext fs].
      destruct (res.1 =? 0); unfold bind, print, ret; cbn [app];
        rewrite ?app_nil_r, <- ?app_assoc; reflexivity.
    + subst run. unfold assembly_head. cbn [app].
      rewrite ?app_nil_r, <- ?app_assoc. reflexivity.
Qed.

(** The run of [maybe_build_video] when the encoder is not installed. *)
Lemma maybe_build_video_skips folder rate video_name wd (s : state W) :
  path_which "ffmpeg" (ext s) = false ->
  maybe_build_video folder rate video_name wd s
  = (Ok false, s,
     [ EvWhich "ffmpeg" false; EvPrint MsgNoFfmpeg; EvPrint MsgInstallHint;
       EvPrint (MsgManualCommand
                  (manual_command folder rate video_name wd)) ]).
Proof.
  intros H. unfold maybe_build_video, bind, shutil_which, print, ret.
  now rewrite H.
Qed.

End Runs.

(** ** Order of the frames *)

Lemma flaky_scan : ScanLaw (sim flaky).
Proof. intros l. reflexivity. Qed.



(** Names in the order c, b, a; times in the order 100, 200, 300. *)
Example ordinals_follow_mtime :
  renamed (firstn 8
             (trace_of (maybe_build_video "./captures" 12 "timelapse.mp4" 1280
                          (@on_shelf flaky))))
  = [ ("./captures/screenshot_c.png", "./captures/temp_000000.png", Ok tt);
      ("./captures/screenshot_b.png", "./captures/temp_000001.png", Ok tt);
      ("./captures/screenshot_a.png", "./captures/temp_000002.png", Ok tt) ].
Proof. vm_compute. reflexivity. Qed.

(** ** Restoration of the frame store *)

Lemma swap_pair_fst (l : list (string * string)) : (swap_pair <$> l).*1 = l.*2.
Proof. induction l as [|[a b] l IH]; [reflexivity|]. cbn. now f_equal. Qed.

Lemma swap_pair_snd (l : list (string * string)) : (swap_pair <$> l).*2 = l.*1.
Proof. induction l as [|[a b] l IH]; [reflexivity|]. cbn. now f_equal. Qed.

Lemma swap_pair_elem (l : list (string * string)) a b :
  (a, b) ∈ l -> (b, a) ∈ swap_pair <$> l.
Proof. intros H. apply list_elem_of_fmap. now exists (a, b). Qed.

Section Restoration.

Context {W : Type} {world : World W}.

(** The files after a forward renaming, an encoder that leaves everything
    but [output] alone, and the renaming back. *)
Lemma round_trip_lookup folder (frames : list string)
    (before encoded : gmap string file) (output : string) :
  NoDup frames ->
  (forall f, f ∈ frames -> is_Some (before !! f)) ->
  (forall f j, f ∈ frames -> f <> temp_name folder j) ->
  (forall k, output <> temp_name folder k) ->
  (forall p, p <> output ->
     encoded !! p = rename_all (temp_pairs folder 0 frames) before !! p) ->
  let moves := temp_pairs folder 0 frames in
  let after := rename_all (swap_pair <$> moves) encoded in
  (forall f, f ∈ frames -> after !! f = before !! f)
  /\ (forall k, (k < length frames)%nat ->
        after !! temp_name folder (Z.of_nat k) = None)
  /\ (forall p, p <> output ->
        (forall k, (k < length frames)%nat -> p <> temp_name folder (Z.of_nat k)) ->
        after !! p = before !! p).
Proof.
  intros Hnd Hpres Htemp Hout Henc moves after. fold moves in Henc.
  assert (Hsrc : moves.*1 = frames) by apply temp_pairs_fst.
  assert (Hdst : forall t, t ∈ moves.*2 <->
            exists k, (k < length frames)%nat /\ t = temp_name folder (Z.of_nat k)).
  { intros t. unfold moves. rewrite temp_pairs_snd_elem.
    split; intros (k & Hk & ->); exists k; (split; [exact Hk|]);
      f_equal; lia. }
  assert (HndT : NoDup moves.*2) by (apply temp_pairs_snd_NoDup; lia).
  destruct (rename_all_lookup moves before) as (F1 & F2 & F3).
  { now rewrite Hsrc. }
  { exact HndT. }
  { rewrite Hsrc. intros x Hx (k & _ & ->)%Hdst. exact (Htemp _ _ Hx eq_refl). }
  { now rewrite Hsrc. }
  assert (Hpair : forall f, f ∈ frames -> exists t, (f, t) ∈ moves).
  { intros f Hf. apply list_elem_of_lookup in Hf as [k Hk].
    eexists. eapply list_elem_of_lookup_2.
    exact (temp_pairs_lookup folder frames 0 k f Hk). }
  assert (Hmove : forall f t, (f, t) ∈ moves ->
            f ∈ frames /\ t ∈ moves.*2 /\ t <> output).
  { intros f t H. split; [|split].
    - rewrite <- Hsrc. apply list_elem_of_fmap. now exists (f, t).
    - apply list_elem_of_fmap. now exists (f, t).
    - assert (Ht : t ∈ moves.*2) by (apply list_elem_of_fmap; now exists (f, t)).
      apply Hdst in Ht as (k & _ & ->). intros E. exact (Hout (Z.of_nat k) (eq_sym E)). }
  destruct (rename_all_lookup (swap_pair <$> moves) encoded) as (B1 & B2 & B3).
  { now rewrite swap_pair_fst. }
  { rewrite swap_pair_snd, Hsrc. exact Hnd. }
  { rewrite swap_pair_fst, swap_pair_snd, Hsrc.
    intros x (k & _ & ->)%Hdst Hx. exact (Htemp _ _ Hx eq_refl). }
  { rewrite swap_pair_fst. intros t Ht.
    assert (Ht' := Ht). apply list_elem_of_fmap in Ht' as ([f t'] & -> & Hft).
    destruct (Hmove f t' Hft) as (Hf & _ & Hne). simpl.
    rewrite (Henc _ Hne), (F1 f t' Hft). now apply Hpres. }
  split; [|split].
  - intros f Hf. destruct (Hpair f Hf) as [t Hft].
    destruct (Hmove f t Hft) as (_ & _ & Hne).
    unfold after. rewrite (B1 t f (swap_pair_elem _ _ _ Hft)).
    now rewrite (Henc _ Hne), (F1 f t Hft).
  - intros k Hk. unfold after. apply B2. rewrite swap_pair_fst.
    apply Hdst. eauto.
  - intros p Hp Hnt.
    destruct (decide (p ∈ frames)) as [Hf|Hf].
    + destruct (Hpair p Hf) as [t Hft].
      destruct (Hmove p t Hft) as (_ & _ & Hne).
      unfold after. rewrite (B1 t p (swap_pair_elem _ _ _ Hft)).
      now rewrite (Henc _ Hne), (F1 p t Hft).
    + assert (Hpt : p ∉ moves.*2).
      { intros (k & Hk & ->)%Hdst. now apply (Hnt k). }
      unfold after. rewrite B3.
      * rewrite (Henc _ Hp). apply F3; [now rewrite Hsrc | exact Hpt].
      * now rewrite swap_pair_fst.
      * now rewrite swap_pair_snd, Hsrc.
Qed.

End Restoration.

(** What the restoration loop achieves when it is reached.  With the
    encoder installed, an output path that is not one of the temporary
    names, and an encoder that returns (with any exit status) after
    touching no path but its output: when [maybe_build_video] returns,
    every frame it found is back under its own name with its own content,
    none of the temporary names it used is left, and every other path
    except the output is as it was.  The function itself returns
    normally. *)
Theorem frame_store_restored
    (W : Type) (world : World W) (Hscan : ScanLaw W)
    (folder : string) (rate : Z) (video_name : string) (wd : Z)
    (s : state W) :
  path_which "ffmpeg" (ext s) = true ->
  (forall k, Text.os_path_join folder video_name <> temp_name folder k) ->
  (forall files w,
     exists res files' w',
       encoder_run (ffmpeg_cmd folder rate video_name wd) files w
       = (Ok res, files', w')
       /\ forall p, p <> Text.os_path_join folder video_name ->
                    files' !! p = files !! p) ->
  let o := maybe_build_video folder rate video_name wd s in
  let n := length (frame_paths folder (fs s)) in
  is_ok (result_of o) = true
  /\ (forall f, f ∈ frame_paths folder (fs s) ->
        fs (state_of o) !! f = fs s !! f)
  /\ (forall k, (k < n)%nat ->
        fs (state_of o) !! temp_name folder (Z.of_nat k) = None)
  /\ (forall p, p <> Text.os_path_join folder video_name ->
        (forall k, (k < n)%nat -> p <> temp_name folder (Z.of_nat k)) ->
        fs (state_of o) !! p = fs s !! p).
Proof.
  intros Hwhich Hout Henc o n. subst o n.
  assert (Hperm : sorted_frames folder (fs s) ≡ₚ frame_paths folder (fs s)).
  { rewrite sorted_frames_perm. now apply globbed_frame_paths. }
  assert (Hlen : length (frame_paths folder (fs s))
                 = length (sorted_frames folder (fs s))) by now rewrite Hperm.
  assert (Hin : forall f, f ∈ frame_paths folder (fs s) ->
                          f ∈ sorted_frames folder (fs s)).
  { intros f. now rewrite Hperm. }
  rewrite Hlen.
  destruct (sorted_frames_ready Hscan folder s) as (Hnd & Hpres & Htemp).
  destruct (maybe_build_video_run Hscan folder rate video_name wd s Hwhich)
    as [[E ->]|[_ (r & files' & w' & Hrun & H)]].
  - rewrite E. cbn. repeat split; auto. intros k Hk. lia.
  - destruct (Henc (rename_all (temp_pairs folder 0 (sorted_frames folder (fs s)))
                      (fs s)) (ext s))
      as (res & files1 & w1 & Hres & Hkeep).
    rewrite Hres in Hrun. injection Hrun as <- <- <-.
    destruct H as (t & _ & ->).
    unfold result_of, state_of. cbn [fst snd fs is_ok].
    split; [reflexivity|].
    destruct (round_trip_lookup folder _ (fs s) files1 _
                Hnd Hpres Htemp Hout Hkeep) as (R1 & R2 & R3).
    split; [|split]; [|exact R2|exact R3].
    intros f Hf. apply R1, Hin, Hf.
Qed.

Lemma failing_encoder_scan : ScanLaw (sim failing_encoder).
Proof. intros l. reflexivity. Qed.

Lemma timelapse_not_temp (k : Z) :
  Text.os_path_join "./captures" "timelapse.mp4" <> temp_name "./captures" k.
Proof.
  intros E. rewrite temp_name_eq in E.
  apply (f_equal (Text.strip_prefix "./captures/te")) in E.
  change (Text.dir_prefix "./captures" +:+ "temp_"
          +:+ Text.fmt_06d k +:+ ".png")
    with ("./captures/te" +:+ ("mp_" +:+ Text.fmt_06d k +:+ ".png")) in E.
  rewrite strip_prefix_app in E. discriminate.
Qed.

Lemma frame_store_restored_witness :
  fs (state_of (maybe_build_video "./captures" 12 "timelapse.mp4" 1280
                  (@on_shelf failing_encoder)))
  !! "./captures/screenshot_b.png"
  = shelf !! "./captures/screenshot_b.png".
Proof.
  refine (proj1 (proj2 (frame_store_restored (sim failing_encoder) _
                          failing_encoder_scan "./captures" 12 "timelapse.mp4"
                          1280 on_shelf eq_refl timelapse_not_temp _)) _ _).
  - intros files w. exists (1, "Conversion failed!"), files, (served w 0).
    split; [reflexivity | auto].
  - apply (list_elem_of_lookup_2 _ 2%nat). vm_compute. reflexivity.
Defined.

(** The same store after a successful and after a failed encoding. *)
Example store_after_success :
  fs (state_of (maybe_build_video "./captures" 12 "timelapse.mp4" 1280
                  (@on_shelf flaky)))
  = <[ "./captures/timelapse.mp4" := File 0 "mp4" ]> shelf.
Proof. vm_compute. reflexivity. Qed.

Example store_after_failure :
  fs (state_of (maybe_build_video "./captures" 12 "timelapse.mp4" 1280
                  (@on_shelf failing_encoder)))
  = shelf.
Proof. vm_compute. reflexivity. Qed.

(** C5. The restoration loop is not reached on every run that has
    renamed the frames: nothing guards the call of the encoder.  On a
    folder of three frames and a note, with [ffmpeg] found on [PATH] and
    [subprocess.run] raising (the program cannot be started),
    [maybe_build_video] renames the three frames to [temp_000000.png],
    [temp_000001.png] and [temp_000002.png] in the order of their
    modification times, calls the encoder and ends with its exception.
    No rename back is attempted: the three frames are left under the
    temporary names, none of the original frame names exists any more,
    and no file matches [screenshot_*.png]. *)
Theorem restoration_skipped_when_encoder_raises :
  let o := maybe_build_video "./captures" 12 "timelapse.mp4" 1280
             (@on_shelf crashing_encoder) in
  result_of o = Raise (Exception "Exec format error")
  /\ renamed (trace_of o)
     = [ ("./captures/screenshot_c.png", "./captures/temp_000000.png", Ok tt);
         ("./captures/screenshot_b.png", "./captures/temp_000001.png", Ok tt);
         ("./captures/screenshot_a.png", "./captures/temp_000002.png", Ok tt) ]
  /\ last (trace_of o)
     = Some (EvRun (ffmpeg_cmd "./captures" 12 "timelapse.mp4" 1280)
               (Raise (Exception "Exec format error")))
  /\ length (frame_paths "./captures" shelf) = 3%nat
  /\ frame_paths "./captures" (fs (state_of o)) = []
  /\ fs (state_of o) !! "./captures/screenshot_a.png" = None
  /\ fs (state_of o) !! "./captures/screenshot_b.png" = None
  /\ fs (state_of o) !! "./captures/screenshot_c.png" = None
  /\ fs (state_of o) !! "./captures/temp_000000.png"
     = shelf !! "./captures/screenshot_c.png"
  /\ fs (state_of o) !! "./captures/temp_000001.png"
     = shelf !! "./captures/screenshot_b.png"
  /\ fs (state_of o) !! "./captures/temp_000002.png"
     = shelf !! "./captures/screenshot_a.png"
  /\ fs (state_of o) !! "./captures/notes.txt"
     = shelf !! "./captures/notes.txt".
Proof. vm_compute. repeat split. Qed.

(** When [subprocess.run] itself raises, the function does not return:
    the exception leaves it with the frames still under their temporary
    names. *)
Example store_after_encoder_exception :
  let o := maybe_build_video "./captures" 12 "timelapse.mp4" 1280
             (@on_shelf crashing_encoder) in
  result_of o = Raise (Exception "Exec format error")
  /\ fs (state_of o) !! "./captures/temp_000000.png" = Some (File 100 "first")
  /\ fs (state_of o) !! "./captures/screenshot_c.png" = None.
Proof. vm_compute. auto. Qed.

(** ** The encoder command *)

(** C6. The command [maybe_build_video] runs carries, after [-vf], the
    filter [video_filter]: it scales to the target width with the height
    following ([-1]) and then pads to a height equal to the width, where the
    command the same function prints for the operator pads to
    [ceil(ih/2)*2], the next even height.  The output is the video name
    joined to the folder. *)
Theorem encoder_pads_to_width :
  (forall folder rate video_name wd,
     ffmpeg_cmd folder rate video_name wd !! 8%nat = Some "-vf"
     /\ ffmpeg_cmd folder rate video_name wd !! 9%nat = Some (video_filter wd)
     /\ last (ffmpeg_cmd folder rate video_name wd)
        = Some (Text.os_path_join folder video_name))
  /\ video_filter 1280 = "scale=1280:-1,pad=1280:1280:0:0:black"
  /\ manual_filter 1280 = "scale=1280:-1,pad=1280:ceil(ih/2)*2:0:0:black".
Proof. split; [intros; repeat split|split; vm_compute; reflexivity]. Qed.

(** ** A missing encoder *)

Lemma no_ffmpeg_scan : ScanLaw (sim no_ffmpeg).
Proof. intros l. reflexivity. Qed.

(** C7, as the code has it. Without the encoder, [maybe_build_video]
    touches nothing (same state, no rename), prints its three lines, the
    last one being the command to run by hand, and returns [False].
    [False] is also what it returns with the encoder installed when no
    frame is found and when the encoder exits with a non-zero status: the
    three outcomes differ in what is printed, not in the value returned. *)
Theorem encoder_missing_skips
    (W : Type) (world : World W) (Hscan : ScanLaw W)
    (folder : string) (rate : Z) (video_name : string) (wd : Z)
    (s : state W) :
  path_which "ffmpeg" (ext s) = false ->
  let o := maybe_build_video folder rate video_name wd s in
  state_of o = s
  /\ renamed (trace_of o) = []
  /\ printed (trace_of o)
     = [ MsgNoFfmpeg; MsgInstallHint;
         MsgManualCommand (manual_command folder rate video_name wd) ]
  /\ result_of o = Ok false
  /\ (forall s',
        path_which "ffmpeg" (ext s') = true ->
        let o' := maybe_build_video folder rate video_name wd s' in
        (sorted_frames folder (fs s') = [] ->
         result_of o' = Ok false /\ printed (trace_of o') = [MsgNoFrames])
        /\ (forall res files' w',
              sorted_frames folder (fs s') <> [] ->
              encoder_run (ffmpeg_cmd folder rate video_name wd)
                (rename_all (temp_pairs folder 0 (sorted_frames folder (fs s')))
                            (fs s'))
                (ext s')
              = (Ok res, files', w') ->
              res.1 <> 0 ->
              result_of o' = Ok false
              /\ last (printed (trace_of o')) = Some (MsgFfmpegFailed res.2))).
Proof.
  intros Hwhich o. subst o.
  rewrite (maybe_build_video_skips folder rate video_name wd s Hwhich).
  do 4 (split; [reflexivity|]).
  intros s' Hwhich' o'. subst o'.
  destruct (maybe_build_video_run Hscan folder rate video_name wd s' Hwhich')
    as [[E Hrun]|[Hne (r & files1 & w1 & Henc & H)]].
  - split; [|intros res files' w' Hne; contradiction].
    intros _. rewrite Hrun. split; [reflexivity|].
    unfold trace_of, printed, assembly_head. cbn [snd].
    rewrite omap_app. cbn.
    rewrite (omap_nil_of_forallb _
               (fun e => match e with EvGetmtime _ _ => true | _ => false end)).
    + reflexivity.
    + now intros [].
    + apply forallb_forall. intros e He.
      apply in_map_iff in He as (p & <- & _). reflexivity.
  - split; [intros E; contradiction|].
    intros res files' w' _ Henc' Hres.
    rewrite Henc' in Henc. injection Henc as <- <- <-.
    destruct H as (t & _ & ->).
    destruct (Z.eqb_spec res.1 0) as [?|_]; [contradiction|].
    split; [reflexivity|].
    unfold trace_of, printed. cbn [snd].
    rewrite !app_assoc, omap_app. cbn. apply last_snoc.
Qed.

Lemma encoder_missing_skips_witness :
  let o := maybe_build_video "./captures" 12 "timelapse.mp4" 1280
             (@on_shelf no_ffmpeg) in
  state_of o = on_shelf /\ renamed (trace_of o) = [].
Proof.
  pose proof (encoder_missing_skips (sim no_ffmpeg) _ no_ffmpeg_scan
                "./captures" 12 "timelapse.mp4" 1280 on_shelf eq_refl) as H.
  exact (conj (proj1 H) (proj1 (proj2 H))).
Defined.

(** The value returned when the encoder is missing is the value returned
    when the encoder fails and when the folder holds no frame. *)
Lemma skipped_returns_what_failed_returns :
  result_of (maybe_build_video "./captures" 12 "timelapse.mp4" 1280
               (@on_shelf no_ffmpeg))
  = result_of (maybe_build_video "./captures" 12 "timelapse.mp4" 1280
                 (@on_shelf failing_encoder))
  /\ result_of (maybe_build_video "./captures" 12 "timelapse.mp4" 1280
                  (@on_shelf no_ffmpeg))
     = result_of (maybe_build_video "./captures" 12 "timelapse.mp4" 1280
                    (@boot flaky)).
Proof. vm_compute. auto. Qed.

(** ** Failures while restoring *)

(** C8, as the code has it. The restoration loop never raises and never
    prints: it attempts the rename of every recorded pair, in order,
    whether or not earlier ones failed; a rename whose temporary file is
    missing leaves the files as they are; the outcome for the files is that
    of the renames taken one by one. *)
Theorem restoration_isolated_and_silent
    (W : Type) (world : World W)
    (temp_files : list (string * string)) (s : state W) :
  let o := restore_names temp_files s in
  result_of o = Ok tt
  /\ printed (trace_of o) = []
  /\ Forall2 (fun pair '(src, dst, r) => src = pair.2 /\ dst = pair.1)
             temp_files (renamed (trace_of o))
  /\ length (trace_of o) = length temp_files
  /\ state_of o
     = State (ext s) (rename_all (swap_pair <$> temp_files) (fs s)).
Proof.
  intros o. subst o.
  destruct (restore_names_run temp_files s) as (t & -> & Hp & Hr & Hall).
  unfold result_of, trace_of, state_of. cbn [fst snd].
  repeat split; try assumption.
  apply Forall2_length in Hr. rewrite Hr. clear -Hall.
  unfold renamed. induction t as [|e t IH]; [reflexivity|].
  simpl in Hall. apply andb_true_iff in Hall as [He Ht].
  destruct e; try discriminate. cbn. f_equal. now apply IH.
Qed.

(** The encoder loses one temporary file: its frame is not restored, the
    other two are, and the run prints what a clean run prints. *)
Lemma failed_restore_goes_unreported :
  let o := maybe_build_video "./captures" 12 "timelapse.mp4" 1280
             (@on_shelf clumsy_encoder) in
  skipn 3 (renamed (trace_of o))
  = [ ("./captures/temp_000000.png", "./captures/screenshot_c.png", Ok tt);
      ("./captures/temp_000001.png", "./captures/screenshot_b.png",
       Raise (Exception "No such file or directory"));
      ("./captures/temp_000002.png", "./captures/screenshot_a.png", Ok tt) ]
  /\ printed (trace_of o) = [MsgBuilding; MsgSaved "./captures/timelapse.mp4"]
  /\ printed (trace_of o)
     = printed (trace_of (maybe_build_video "./captures" 12 "timelapse.mp4"
                            1280 (@on_shelf flaky)))
  /\ result_of o = Ok true
  /\ fs (state_of o) !! "./captures/screenshot_b.png" = None.
Proof. vm_compute. auto. Qed.

(** * Further properties *)

(** ** Frame names *)

Section NameFacts.

Import Text.

#[local] Arguments String.append : simpl nomatch.

Lemma length_append (a b : string) :
  String.length (a +:+ b) = (String.length a + String.length b)%nat.
Proof. induction a as [|x a IH]; simpl; [reflexivity | now rewrite IH]. Qed.

Lemma substring_whole (s : string) : substring 0 (String.length s) s = s.
Proof. induction s as [|x s IH]; simpl; [reflexivity | now rewrite IH]. Qed.

Lemma substring_app_left (a b : string) :
  substring 0 (String.length a) (a +:+ b) = a.
Proof.
  induction a as [|x a IH]; simpl.
  - now destruct b.
  - now rewrite IH.
Qed.

Lemma substring_app_right (a b : string) :
  substring (String.length a) (String.length b) (a +:+ b) = b.
Proof.
  induction a as [|x a IH]; simpl; [apply substring_whole | exact IH].
Qed.

Lemma append_inv_tail (a b c : string) : a +:+ c = b +:+ c -> a = b.
Proof.
  intros E.
  assert (L : String.length a = String.length b).
  { apply (f_equal String.length) in E. rewrite !length_append in E. lia. }
  rewrite <- (substring_app_left a c), E, L. apply substring_app_left.
Qed.

Lemma ends_with_app (a q : string) : ends_with q (a +:+ q) = true.
Proof.
  unfold ends_with. rewrite length_append.
  replace (String.length a + String.length q - String.length q)%nat
    with (String.length a) by lia.
  rewrite substring_app_right, String.eqb_refl, andb_true_r.
  apply Nat.leb_le. lia.
Qed.

Lemma contains_char_app (c : ascii) (a b : string) :
  contains_char c (a +:+ b) = contains_char c a || contains_char c b.
Proof.
  induction a as [|x a IH]; simpl; [reflexivity|].
  now rewrite IH, orb_assoc.
Qed.

Lemma contains_char_digits (c : ascii) (d : string) :
  is_digit c = false -> all_digits d = true -> contains_char c d = false.
Proof.
  intros Hc. induction d as [|x d IH]; simpl; [reflexivity|].
  intros [Hx Hd]%andb_true_iff. rewrite (IH Hd), orb_false_r.
  destruct (Ascii.eqb x c) eqn:E; [|reflexivity].
  apply Ascii.eqb_eq in E as ->. congruence.
Qed.

Lemma fmt_06d_no_slash (i : Z) : contains_char "/" (fmt_06d i) = false.
Proof.
  assert (D : forall w n, contains_char "/" (zfill w (digits n)) = false).
  { intros w n. apply contains_char_digits; [reflexivity|].
    unfold zfill, digits.
    now rewrite all_digits_app, all_digits_zeros, all_digits_uint. }
  unfold fmt_06d. destruct (i <? 0); [simpl|]; apply D.
Qed.

Lemma frame_path_eq (folder : string) (i : Z) (ts : string) :
  os_path_join folder (screenshot_name i ts)
  = dir_prefix folder +:+ "screenshot_" +:+ fmt_06d i +:+ "_" +:+ ts +:+ ".png".
Proof. unfold screenshot_name. now rewrite os_path_join_relative. Qed.

End NameFacts.

(** X1. Two frame paths in the same folder are equal only for the same
    index and the same timestamp: frames of different ticks never share a
    file, even when their timestamps coincide. *)
Theorem frame_paths_distinct
    (folder : string) (i j : Z) (ts ts' : string) :
  0 <= i -> 0 <= j ->
  Text.os_path_join folder (screenshot_name i ts)
  = Text.os_path_join folder (screenshot_name j ts') ->
  i = j /\ ts = ts'.
Proof.
  intros Hi Hj E. rewrite !frame_path_eq in E.
  apply String.app_inj in E. apply (String.app_inj "screenshot_") in E.
  assert (S : forall k t, 0 <= k ->
            Text.split_at "_" (Text.fmt_06d k +:+ "_" +:+ t +:+ ".png")
            = Some (Text.fmt_06d k, t +:+ ".png")).
  { intros k t Hk.
    change ("_" +:+ t +:+ ".png") with (String "_" (t +:+ ".png")).
    apply split_at_digits; [reflexivity | now apply all_digits_fmt]. }
  pose proof (S i ts Hi) as Si. rewrite E, (S j ts' Hj) in Si.
  injection Si as Ef Et. split.
  - symmetry. now apply fmt_06d_inj.
  - symmetry. now apply (append_inv_tail _ _ ".png").
Qed.

Lemma frame_paths_distinct_witness :
  3 = 3 /\ "20240229-235959" = "20240229-235959".
Proof.
  apply (frame_paths_distinct "./captures" 3 3
           "20240229-235959" "20240229-235959"); [lia | lia | reflexivity].
Defined.

(** X2. For a folder without pattern characters ([*], [?], an opening
    bracket) and without a doubled separator at its end, and whatever the
    index, the frame path built by the scheduler is matched by the pattern
    the assembly globs in that folder, provided the timestamp holds no
    directory separator: what a tick saves there is what
    [maybe_build_video] looks for.  (In a folder such as [cap[1]] the
    pattern of line 114 names another directory, and in [cap//] the paths
    come back under another spelling.) *)
Theorem frame_path_is_globbed (folder : string) (i : Z) (ts : string) :
  plain_folder folder = true ->
  Text.contains_char "/" ts = false ->
  matches_star (Text.os_path_join folder "screenshot_") ".png"
    (Text.os_path_join folder (screenshot_name i ts)) = true.
Proof.
  intros _ Hts. unfold matches_star.
  rewrite frame_path_eq, os_path_join_relative by reflexivity.
  rewrite strip_prefix_common.
  change (Text.strip_prefix "screenshot_"
            ("screenshot_" +:+ Text.fmt_06d i +:+ "_" +:+ ts +:+ ".png"))
    with (Text.strip_prefix "screenshot_"
            ("screenshot_" +:+ (Text.fmt_06d i +:+ "_" +:+ ts +:+ ".png"))).
  rewrite strip_prefix_app.
  replace (Text.fmt_06d i +:+ "_" +:+ ts +:+ ".png")
    with ((Text.fmt_06d i +:+ "_" +:+ ts) +:+ ".png")
    by now rewrite !append_assoc.
  rewrite ends_with_app, length_append.
  replace (String.length (Text.fmt_06d i +:+ "_" +:+ ts)
           + String.length ".png" - String.length ".png")%nat
    with (String.length (Text.fmt_06d i +:+ "_" +:+ ts)) by lia.
  rewrite substring_app_left, !contains_char_app, fmt_06d_no_slash, Hts.
  reflexivity.
Qed.

Lemma frame_path_is_globbed_witness :
  matches_star "./captures/screenshot_" ".png"
    "./captures/screenshot_000041_20240229-235959.png" = true.
Proof.
  exact (frame_path_is_globbed "./captures" 41 "20240229-235959"
           eq_refl eq_refl).
Defined.

(** ** The run of [main], phase by phase *)

Section MainPhases.

Context {W : Type} {world : World W}.

(** [main] up to the [try]: the folder, the count, the banner. *)
Lemma main_prologue a n (s s1 : state W) t1 :
  ensure_out_dir (out a) s = (Ok tt, s1, t1) ->
  compute_nshots a = Ok n ->
  main a s
  = (let '(r, s2, t2) :=
       ((driver <- new_driver (width a) (height a) ;;
         try_finally (schedule a n driver) (driver_quit driver)) ;;;
        maybe_build_video (out a) (fps a) (video a) (width a) ;;;
        ret tt) s1 in
     (r, s2, t1 ++ banner a n ++ t2)).
Proof.
  intros Hdir Hn. unfold main. rewrite (bind_ok _ _ _ _ _ _ Hdir).
  unfold bind at 1, lift at 1. rewrite Hn. cbn [app].
  do 5 (unfold bind at 1, print at 1).
  destruct (bind _ _ s1) as [[r s2] t2]. reflexivity.
Qed.

(** The [try ... finally] of [main] once the session is there. *)
Lemma main_bracket a n d (s1 s2 s3 s4 : state W) t2 r t3 rq t4 :
  new_driver (width a) (height a) s1 = (Ok d, s2, t2) ->
  schedule a n d s2 = (r, s3, t3) ->
  driver_quit d s3 = (rq, s4, t4) ->
  (driver <- new_driver (width a) (height a) ;;
   try_finally (schedule a n driver) (driver_quit driver)) s1
  = (match rq with Ok _ => r | Raise e => Raise e end, s4, t2 ++ t3 ++ t4).
Proof.
  intros Hd Hs Hq. rewrite (bind_ok _ _ _ _ _ _ Hd).
  unfold try_finally. rewrite Hs, Hq. now destruct rq.
Qed.

Lemma ensure_out_dir_quiet path :
  emits (fun e => no_capture e && no_assembly e && no_lifecycle e)
        (ensure_out_dir path).
Proof. emits_walk. Qed.

Lemma new_driver_quiet wd ht :
  emits (fun e => no_capture e && no_assembly e) (new_driver wd ht).
Proof. emits_walk. Qed.

Lemma schedule_no_assembly a n d :
  emits no_assembly (schedule (W := W) a n d).
Proof. unfold schedule, tick. emits_walk. Qed.

Lemma driver_quit_no_assembly d : emits no_assembly (driver_quit d).
Proof. emits_walk. Qed.

Lemma forallb_and {A} (P Q : A -> bool) (l : list A) :
  forallb (fun x => P x && Q x) l = true ->
  forallb P l = true /\ forallb Q l = true.
Proof.
  induction l as [|x l IH]; simpl; [auto|].
  intros [[Hp Hq]%andb_true_iff Hl]%andb_true_iff.
  destruct (IH Hl) as [-> ->]. now rewrite Hp, Hq.
Qed.

End MainPhases.

(** X3. With [--duration], for a duration from 0 and an interval above 0,
    both below [2 ^ 52] seconds, the number of ticks is the integer nearest
    to duration / interval, the even one of the two when the quotient lies
    half-way, and 1 when that integer is smaller than 1: in this range the
    float division of line 166 loses nothing. *)
Theorem nshots_is_nearest (a : args) (secs : Z) :
  ticks a = Duration secs ->
  0 <= secs < 2 ^ 52 ->
  0 < interval a < 2 ^ 52 ->
  let q := round_div secs (interval a) in
  compute_nshots a = Ok (Z.max 1 q)
  /\ 2 * Z.abs (secs - interval a * q) <= Z.abs (interval a)
  /\ (2 * Z.abs (secs - interval a * q) = Z.abs (interval a) ->
      Z.even q = true).
Proof.
  intros Ht Hs Hi q. split; [exact (compute_nshots_small a secs Ht Hs Hi)|].
  apply round_div_nearest. lia.
Qed.

Lemma nshots_is_nearest_witness :
  compute_nshots
    {| url := ""; out := ""; interval := 30; ticks := Duration 105;
       width := 1280; height := 800; fullpage := false; load_wait := 0;
       fps := 12; video := "" |}
  = Ok 4.
Proof.
  exact (proj1 (nshots_is_nearest
                  {| url := ""; out := ""; interval := 30;
                     ticks := Duration 105; width := 1280; height := 800;
                     fullpage := false; load_wait := 0; fps := 12;
                     video := "" |} 105 eq_refl
                  ltac:(now vm_compute) ltac:(now vm_compute))).
Defined.

(** X4. With [--duration] and [--interval 0], [main] stops on the division
    right after the output folder is made: nothing is printed, no browser
    is started, and the script ends with status 1. *)
Theorem zero_interval_stops_main
    (W : Type) (world : World W) (a : args) (secs : Z)
    (s s1 : state W) (t1 : list event) :
  ticks a = Duration secs ->
  interval a = 0 ->
  ensure_out_dir (out a) s = (Ok tt, s1, t1) ->
  main a s = (Raise (Exception "division by zero"), s1, t1)
  /\ script a s = (1, s1, t1)
  /\ printed t1 = [] /\ forallb no_lifecycle t1 = true.
Proof.
  intros Ht Hi Hdir.
  assert (E : main a s = (Raise (Exception "division by zero"), s1, t1)).
  { unfold main. rewrite (bind_ok _ _ _ _ _ _ Hdir).
    unfold bind at 1, lift at 1, compute_nshots. rewrite Ht, Hi. cbn.
    now rewrite app_nil_r. }
  split; [exact E|]. split; [unfold script; now rewrite E|].
  unfold ensure_out_dir, os_makedirs, external in Hdir.
  destruct (os_makedirs_ext (out a) (ext s)) as [r w].
  injection Hdir as _ _ <-. split; reflexivity.
Qed.

Lemma zero_interval_stops_main_witness :
  script zero_interval_args (@boot flaky)
  = (1, State (Sim 1 0) ∅, [EvMakedirs "./captures" (Ok tt)]).
Proof.
  exact (proj1 (proj2 (zero_interval_stops_main (sim flaky) _
                         zero_interval_args 60 boot _ _
                         eq_refl eq_refl eq_refl))).
Defined.

(** X5. When the browser session cannot be acquired, [main] raises what
    [new_driver] raised: no tick is announced, no page is loaded, nothing
    is released and the assembly is not attempted. *)
Theorem browser_failure_aborts
    (W : Type) (world : World W) (a : args) (n : Z)
    (s s1 s2 : state W) (t1 t2 : list event) (e : exn) :
  ensure_out_dir (out a) s = (Ok tt, s1, t1) ->
  compute_nshots a = Ok n ->
  new_driver (width a) (height a) s1 = (Raise e, s2, t2) ->
  let t := t1 ++ banner a n ++ t2 in
  main a s = (Raise e, s2, t)
  /\ forallb no_capture t = true
  /\ forallb no_assembly t = true
  /\ released t = [].
Proof.
  intros Hdir Hn Hdrv t. subst t.
  rewrite (main_prologue a n s s1 t1 Hdir Hn).
  rewrite (bind_raise _ _ _ _ _ _ (bind_raise _ _ _ _ _ _ Hdrv)).
  split; [reflexivity|].
  pose proof (ensure_out_dir_quiet (out a) s) as Q1. rewrite Hdir in Q1.
  apply forallb_and in Q1 as [[C1 A1]%forallb_and L1].
  pose proof (new_driver_quiet (width a) (height a) s1) as Q2.
  rewrite Hdrv in Q2. apply forallb_and in Q2 as [C2 A2].
  unfold trace_of in *. cbn [snd] in *.
  rewrite !forallb_app, C1, A1, C2, A2. repeat split.
  unfold released. rewrite !omap_app.
  rewrite (omap_nil_of_forallb _ no_lifecycle t1) by (auto; now intros []).
  unfold new_driver, webdriver_Chrome, set_page_load_timeout, bind, ret,
    external in Hdrv.
  destruct (chrome_start _ _ (ext s1)) as [[d|e1] w1]; cbn [ext fs] in Hdrv.
  - destruct (chrome_set_page_load_timeout d 120 w1) as [[[]|e2] w2];
      [discriminate|]. injection Hdrv as _ _ <-. reflexivity.
  - injection Hdrv as _ _ <-. reflexivity.
Qed.

Lemma browser_failure_aborts_witness :
  result_of (main demo_args (@boot no_browser))
  = Raise (Exception "chrome not reachable").
Proof.
  refine (let o1 := ensure_out_dir (out demo_args) (@boot no_browser) in
          let o2 := new_driver 1280 800 (state_of o1) in
          eq_trans
            (f_equal result_of
               (proj1 (browser_failure_aborts (sim no_browser) _ demo_args 3
                         boot (state_of o1) (state_of o2) (trace_of o1)
                         (trace_of o2) (Exception "chrome not reachable")
                         _ eq_refl _))) _);
    vm_compute; reflexivity.
Defined.

(** X6. When an exception leaves the loop (an interruption, or an error
    outside the guarded capture) and the release succeeds, [main] releases
    the session and raises that exception: the frames captured so far are
    not assembled. *)
Theorem loop_failure_skips_assembly
    (W : Type) (world : World W) (a : args) (n : Z) (d : handle)
    (s s1 s2 s3 s4 : state W) (t1 t2 t3 t4 : list event) (e : exn) :
  ensure_out_dir (out a) s = (Ok tt, s1, t1) ->
  compute_nshots a = Ok n ->
  new_driver (width a) (height a) s1 = (Ok d, s2, t2) ->
  schedule a n d s2 = (Raise e, s3, t3) ->
  driver_quit d s3 = (Ok tt, s4, t4) ->
  let t := t1 ++ banner a n ++ t2 ++ t3 ++ t4 in
  main a s = (Raise e, s4, t)
  /\ forallb no_assembly t = true
  /\ last t = Some (EvQuit d (Ok tt)).
Proof.
  intros Hdir Hn Hdrv Hs Hq t. subst t.
  rewrite (main_prologue a n s s1 t1 Hdir Hn).
  rewrite (bind_raise _ _ _ _ _ _
             (main_bracket a n d s1 s2 s3 s4 t2 _ t3 _ t4 Hdrv Hs Hq)).
  split; [reflexivity|].
  pose proof (ensure_out_dir_quiet (out a) s) as Q1. rewrite Hdir in Q1.
  apply forallb_and in Q1 as [[_ A1]%forallb_and _].
  pose proof (new_driver_quiet (width a) (height a) s1) as Q2.
  rewrite Hdrv in Q2. apply forallb_and in Q2 as [_ A2].
  pose proof (schedule_no_assembly a n d s2) as A3. rewrite Hs in A3.
  unfold trace_of in *. cbn [snd] in *.
  unfold driver_quit, external in Hq.
  destruct (chrome_quit d (ext s3)) as [rq w4]. injection Hq as -> _ <-.
  rewrite !forallb_app, A1, A2, A3. split; [reflexivity|].
  rewrite !app_assoc. apply last_snoc.
Qed.

Lemma loop_failure_skips_assembly_witness :
  result_of (main demo_args (@boot interrupted)) = Raise KeyboardInterrupt.
Proof.
  refine (let o1 := ensure_out_dir (out demo_args) (@boot interrupted) in
          let o2 := new_driver 1280 800 (state_of o1) in
          let o3 := schedule demo_args 3 7%nat (state_of o2) in
          let o4 := driver_quit 7%nat (state_of o3) in
          eq_trans
            (f_equal result_of
               (proj1 (loop_failure_skips_assembly (sim interrupted) _
                         demo_args 3 7%nat boot (state_of o1) (state_of o2)
                         (state_of o3) (state_of o4) (trace_of o1)
                         (trace_of o2) (trace_of o3) (trace_of o4)
                         KeyboardInterrupt _ eq_refl _ _ _))) _);
    vm_compute; reflexivity.
Defined.

(** X7. When [driver.quit()] itself raises, [main] raises that exception
    whatever the loop did, even after a loop that ran to its end: the
    assembly is not attempted. *)
Theorem quit_failure_skips_assembly
    (W : Type) (world : World W) (a : args) (n : Z) (d : handle)
    (s s1 s2 s3 s4 : state W) (t1 t2 t3 t4 : list event)
    (r : result unit) (e : exn) :
  ensure_out_dir (out a) s = (Ok tt, s1, t1) ->
  compute_nshots a = Ok n ->
  new_driver (width a) (height a) s1 = (Ok d, s2, t2) ->
  schedule a n d s2 = (r, s3, t3) ->
  driver_quit d s3 = (Raise e, s4, t4) ->
  let t := t1 ++ banner a n ++ t2 ++ t3 ++ t4 in
  main a s = (Raise e, s4, t)
  /\ forallb no_assembly t = true.
Proof.
  intros Hdir Hn Hdrv Hs Hq t. subst t.
  rewrite (main_prologue a n s s1 t1 Hdir Hn).
  rewrite (bind_raise _ _ _ _ _ _
             (main_bracket a n d s1 s2 s3 s4 t2 _ t3 _ t4 Hdrv Hs Hq)).
  split; [reflexivity|].
  pose proof (ensure_out_dir_quiet (out a) s) as Q1. rewrite Hdir in Q1.
  apply forallb_and in Q1 as [[_ A1]%forallb_and _].
  pose proof (new_driver_quiet (width a) (height a) s1) as Q2.
  rewrite Hdrv in Q2. apply forallb_and in Q2 as [_ A2].
  pose proof (schedule_no_assembly a n d s2) as A3. rewrite Hs in A3.
  pose proof (driver_quit_no_assembly d s3) as A4. rewrite Hq in A4.
  unfold trace_of in *. cbn [snd] in *.
  now rewrite !forallb_app, A1, A2, A3, A4.
Qed.

Lemma quit_failure_skips_assembly_witness :
  result_of (main demo_args (@boot bad_quit))
  = Raise (Exception "invalid session id").
Proof.
  refine (let o1 := ensure_out_dir (out demo_args) (@boot bad_quit) in
          let o2 := new_driver 1280 800 (state_of o1) in
          let o3 := schedule demo_args 3 7%nat (state_of o2) in
          let o4 := driver_quit 7%nat (state_of o3) in
          eq_trans
            (f_equal result_of
               (proj1 (quit_failure_skips_assembly (sim bad_quit) _
                         demo_args 3 7%nat boot (state_of o1) (state_of o2)
                         (state_of o3) (state_of o4) (trace_of o1)
                         (trace_of o2) (trace_of o3) (trace_of o4)
                         (Ok tt) (Exception "invalid session id")
                         _ eq_refl _ _ _))) _);
    vm_compute; reflexivity.
Defined.

(** X8. When the loop and the release end normally, [main] runs the
    assembly after the release and returns normally whenever the assembly
    returns, with [True] or with [False]: the script ends with status 0
    also when no video was built. *)
Theorem status_ignores_assembly_result
    (W : Type) (world : World W) (a : args) (n : Z) (d : handle)
    (s s1 s2 s3 s4 s5 : state W) (t1 t2 t3 t4 t5 : list event) (built : bool) :
  ensure_out_dir (out a) s = (Ok tt, s1, t1) ->
  compute_nshots a = Ok n ->
  new_driver (width a) (height a) s1 = (Ok d, s2, t2) ->
  schedule a n d s2 = (Ok tt, s3, t3) ->
  driver_quit d s3 = (Ok tt, s4, t4) ->
  maybe_build_video (out a) (fps a) (video a) (width a) s4
  = (Ok built, s5, t5) ->
  main a s = (Ok tt, s5, t1 ++ banner a n ++ t2 ++ t3 ++ t4 ++ t5)
  /\ (script a s).1.1 = 0.
Proof.
  intros Hdir Hn Hdrv Hs Hq Hv.
  assert (E : main a s
              = (Ok tt, s5, t1 ++ banner a n ++ t2 ++ t3 ++ t4 ++ t5)).
  { rewrite (main_prologue a n s s1 t1 Hdir Hn).
    rewrite (bind_ok _ _ _ _ _ _
               (main_bracket a n d s1 s2 s3 s4 t2 _ t3 _ t4 Hdrv Hs Hq)).
    rewrite (bind_ok _ _ _ _ _ _ Hv). unfold ret.
    now rewrite ?app_nil_r, <- ?app_assoc. }
  split; [exact E|]. unfold script. now rewrite E.
Qed.

Lemma status_ignores_assembly_result_witness :
  (script demo_args (@boot blind)).1.1 = 0.
Proof.
  refine (let o1 := ensure_out_dir (out demo_args) (@boot blind) in
          let o2 := new_driver 1280 800 (state_of o1) in
          let o3 := schedule demo_args 3 7%nat (state_of o2) in
          let o4 := driver_quit 7%nat (state_of o3) in
          let o5 := maybe_build_video "./captures" 12 "timelapse.mp4" 1280
                      (state_of o4) in
          proj2 (status_ignores_assembly_result (sim blind) _
                   demo_args 3 7%nat boot (state_of o1) (state_of o2)
                   (state_of o3) (state_of o4) (state_of o5) (trace_of o1)
                   (trace_of o2) (trace_of o3) (trace_of o4) (trace_of o5)
                   false _ eq_refl _ _ _ _));
    vm_compute; reflexivity.
Defined.

(** ** What a capture does to the files and to the window *)

Section KeepingFacts.

Context {W : Type} {world : World W}.

Lemma keeps_ret {A} p (x : A) : keeps p (ret (W := W) x).
Proof. intros s. reflexivity. Qed.

Lemma keeps_raise {A} p e : keeps p (raise (W := W) (A := A) e).
Proof. intros s. reflexivity. Qed.

Lemma keeps_bind {A B} p (m : M W A) (k : A -> M W B) :
  keeps p m -> (forall x, keeps p (k x)) -> keeps p (bind m k).
Proof.
  intros Hm Hk s. specialize (Hm s). unfold bind, state_of in *.
  destruct (m s) as [[[x|e] s1] t1]; cbn [fst snd] in *; [|exact Hm].
  specialize (Hk x s1). unfold state_of in Hk.
  destruct (k x s1) as [[r s2] t2]. cbn [fst snd] in *. congruence.
Qed.

Lemma keeps_bind_ret {A B C} p (m : M W A) (f : A -> B) (h : B -> M W C) :
  keeps p (bind m (fun x => h (f x))) ->
  keeps p (bind (bind m (fun x => ret (f x))) h).
Proof.
  intros H s. specialize (H s). revert H. unfold bind, ret, state_of.
  destruct (m s) as [[[x|e] s1] t1]; cbn [fst snd]; [|easy].
  destruct (h (f x) s1) as [[r s2] t2]. now cbn [fst snd].
Qed.

Lemma keeps_try_except {A} p (body : M W A) (handler : string -> M W A) :
  keeps p body -> (forall e, keeps p (handler e)) ->
  keeps p (try_except body handler).
Proof.
  intros Hb Hh s. specialize (Hb s). unfold try_except, state_of in *.
  destruct (body s) as [[[x|[detail|]] s1] t1]; cbn [fst snd] in *;
    try exact Hb.
  specialize (Hh detail s1). unfold state_of in Hh.
  destruct (handler detail s1) as [[r s2] t2]. cbn [fst snd] in *. congruence.
Qed.

Lemma keeps_for_each {A} p (xs : list A) (body : A -> M W unit) :
  (forall x, x ∈ xs -> keeps p (body x)) -> keeps p (for_each xs body).
Proof.
  induction xs as [|x xs IH]; intros Hb; simpl.
  - apply keeps_ret.
  - apply keeps_bind; [apply Hb; left|intros _].
    apply IH. intros y Hy. apply Hb. now right.
Qed.

Lemma keeps_external {A} p (op : W -> result A * W) ev :
  keeps p (external op ev).
Proof.
  intros s. unfold external, state_of. now destruct (op (ext s)) as [r w].
Qed.

Lemma keeps_print p m : keeps p (print (W := W) m).
Proof. intros s. reflexivity. Qed.

Lemma keeps_now p : keeps p datetime_now.
Proof.
  intros s. unfold datetime_now, state_of.
  now destruct (clock_now (ext s)) as [t w].
Qed.

Lemma keeps_sleep p us : keeps p (time_sleep us).
Proof.
  unfold time_sleep. destruct (us <? 0);
    [apply keeps_raise | apply keeps_external].
Qed.

Lemma keeps_save_screenshot p d path :
  p <> path -> keeps p (save_screenshot d path).
Proof.
  intros Hp s. unfold save_screenshot, state_of.
  destruct (chrome_screenshot d (ext s)) as [[[png|]|e] w]; cbn [fst snd fs];
    [|reflexivity..].
  apply lookup_insert_ne. congruence.
Qed.

Lemma keeps_capture_once p d u wait full path :
  p <> path -> keeps p (capture_once d u wait full path).
Proof.
  intros Hp. unfold capture_once, driver_get, scroll_to_top, execute_script.
  assert (V : keeps p (viewport_screenshot d path)).
  { unfold viewport_screenshot. apply keeps_bind;
      [now apply keeps_save_screenshot | intros; apply keeps_ret]. }
  apply keeps_bind; [apply keeps_external|intros _].
  apply keeps_bind; [apply keeps_sleep|intros _].
  apply keeps_bind;
    [apply keeps_bind; [apply keeps_external|intros; apply keeps_ret]|intros _].
  destruct full; [|exact V].
  apply keeps_try_except; [|intros; exact V].
  unfold fullpage_screenshot, execute_script, get_window_width, set_window_size.
  apply keeps_bind; [apply keeps_external|intros v].
  apply keeps_bind; [destruct v; [apply keeps_ret|apply keeps_raise]|intros h].
  apply keeps_bind; [apply keeps_external|intros x].
  apply keeps_bind; [apply keeps_external|intros _].
  apply keeps_bind; [apply keeps_sleep|intros _].
  apply keeps_bind; [now apply keeps_save_screenshot|intros; apply keeps_ret].
Qed.

(** Navigation, settle and scroll write no file. *)
Lemma prelude_keeps_files d u wait (s s1 : state W) r t1 :
  (driver_get d u ;;; time_sleep wait ;;; scroll_to_top d) s = (r, s1, t1) ->
  fs s1 = fs s.
Proof.
  intros H. apply map_eq. intros p.
  assert (K : keeps p (driver_get d u ;;; time_sleep wait ;;; scroll_to_top d)).
  { unfold driver_get, scroll_to_top, execute_script.
    apply keeps_bind; [apply keeps_external|intros _].
    apply keeps_bind; [apply keeps_sleep|intros _].
    apply keeps_bind; [apply keeps_external|intros; apply keeps_ret]. }
  specialize (K s). now rewrite H in K.
Qed.

End KeepingFacts.

Lemma notes_not_a_frame (i : Z) (ts : string) :
  "./captures/notes.txt"
  <> Text.os_path_join "./captures" (screenshot_name i ts).
Proof.
  intros E. rewrite frame_path_eq in E.
  apply (f_equal (Text.strip_prefix "./captures/s")) in E.
  change (Text.dir_prefix "./captures" +:+ "screenshot_"
          +:+ Text.fmt_06d i +:+ "_" +:+ ts +:+ ".png")
    with ("./captures/s"
          +:+ ("creenshot_" +:+ Text.fmt_06d i +:+ "_" +:+ ts +:+ ".png")) in E.
  rewrite strip_prefix_app in E. discriminate.
Qed.

(** X9. Whatever the world does, the loop changes no file other than the
    frames of its own ticks: a path that is not the frame path of an index
    below [nshots] holds after the loop what it held before. *)
Theorem schedule_writes_only_frames
    (W : Type) (world : World W) (a : args) (nshots : Z) (driver : handle)
    (s : state W) (p : string) :
  (forall i ts, 0 <= i < nshots ->
     p <> Text.os_path_join (out a) (screenshot_name i ts)) ->
  fs (state_of (schedule a nshots driver s)) !! p = fs s !! p.
Proof.
  intros Hp. revert s. change (keeps p (schedule a nshots driver)).
  unfold schedule.
  apply keeps_bind; [apply keeps_now|intros start].
  apply keeps_bind; [|intros _; apply keeps_bind;
                        [apply keeps_now | intros; apply keeps_print]].
  apply keeps_for_each. intros i Hi%range_elem. unfold tick, get_timestamped_name.
  apply keeps_bind_ret.
  apply keeps_bind; [apply keeps_now|intros now].
  apply keeps_bind; [apply keeps_now|intros t0].
  apply keeps_bind; [apply keeps_print|intros _].
  apply keeps_bind.
  - apply keeps_try_except; [|intros; apply keeps_print].
    apply keeps_bind; [|intros; apply keeps_print].
    apply keeps_capture_once. apply Hp. exact Hi.
  - intros _. destruct (i <? nshots - 1); [|apply keeps_ret].
    apply keeps_bind; [apply keeps_now | intros; apply keeps_sleep].
Qed.

Lemma schedule_writes_only_frames_witness :
  fs (state_of (schedule demo_args 3 7%nat (@on_shelf flaky)))
  !! "./captures/notes.txt"
  = shelf !! "./captures/notes.txt".
Proof.
  apply (schedule_writes_only_frames (sim flaky) _ demo_args 3 7%nat on_shelf).
  intros i ts _. apply notes_not_a_frame.
Defined.

(** X10. In viewport mode, a snapshot that Selenium could not write, and
    says so by answering [False], goes unnoticed: the capture ends
    normally, no file is there, and the tick reports success. *)
Theorem unsaved_snapshot_reports_done
    (W : Type) (world : World W)
    (driver : handle) (u : string) (wait : Z) (path : string)
    (s s1 : state W) (t1 : list event) (w : W) :
  (driver_get driver u ;;; time_sleep wait ;;; scroll_to_top driver) s
  = (Ok tt, s1, t1) ->
  chrome_screenshot driver (ext s1) = (Ok None, w) ->
  let t := t1 ++ [EvSaveScreenshot driver path (Ok false)] in
  capture_once driver u wait false path s = (Ok tt, State w (fs s), t)
  /\ try_except (capture_once driver u wait false path ;;; print MsgDone)
                (fun e => print (MsgError e)) s
     = (Ok tt, State w (fs s), t ++ [EvPrint MsgDone]).
Proof.
  intros Hpre Hshot t. subst t.
  assert (E : capture_once driver u wait false path s
              = (Ok tt, State w (fs s),
                 t1 ++ [EvSaveScreenshot driver path (Ok false)])).
  { unfold capture_once.
    rewrite bind_after_three, (bind_ok _ _ _ _ _ _ Hpre).
    unfold viewport_screenshot, bind, save_screenshot, ret.
    rewrite Hshot, (prelude_keeps_files _ _ _ _ _ _ _ Hpre).
    now rewrite app_nil_r. }
  split; [exact E|].
  unfold try_except, bind at 1. rewrite E. reflexivity.
Qed.

Lemma unsaved_snapshot_reports_done_witness :
  capture_once (W := sim blind) 7%nat "https://example.com" 3000000 false
    "./captures/f.png" boot
  = (Ok tt, State (Sim 4 4000000) ∅,
     [ EvGet 7%nat "https://example.com" (Ok tt);
       EvSleep 3000000 (Ok tt);
       EvExecuteScript 7%nat "window.scrollTo(0, 0);" (Ok (Some 1500));
       EvSaveScreenshot 7%nat "./captures/f.png" (Ok false) ]).
Proof.
  refine (let o := (driver_get 7%nat "https://example.com" ;;;
                    time_sleep 3000000 ;;; scroll_to_top 7%nat)
                     (@boot blind) in
          eq_trans
            (proj1 (unsaved_snapshot_reports_done (sim blind) _ 7%nat
                      "https://example.com" 3000000 "./captures/f.png"
                      boot (state_of o) (trace_of o) (Sim 4 4000000) _ _)) _);
    vm_compute; reflexivity.
Defined.

(** X11. Whatever height the page reports, no tick asks for a window
    taller than 20000 pixels. *)
Theorem window_height_capped
    (W : Type) (world : World W) (a : args) (nshots : Z) (driver : handle)
    (s : state W) :
  forallb height_capped (trace_of (schedule a nshots driver s)) = true.
Proof.
  revert s. change (emits height_capped (schedule a nshots driver)).
  unfold schedule, tick. emits_walk.
  apply emits_external. intros r. cbn. apply Z.leb_le, Z.le_min_r.
Qed.

(** X12. Without [--fullpage] the loop leaves the window alone: it asks
    for no page height, reads no window size and resizes nothing. *)
Theorem viewport_mode_leaves_window
    (W : Type) (world : World W) (a : args) (nshots : Z) (driver : handle)
    (s : state W) :
  fullpage a = false ->
  forallb leaves_window (trace_of (schedule a nshots driver s)) = true.
Proof.
  intros Hf. revert s. change (emits leaves_window (schedule a nshots driver)).
  unfold schedule, tick, capture_once. rewrite Hf. cbv iota. emits_walk.
Qed.

Lemma viewport_mode_leaves_window_witness :
  forallb leaves_window
    (trace_of (schedule demo_args 3 7%nat (@boot tall_page))) = true.
Proof.
  apply (viewport_mode_leaves_window (sim tall_page) _ demo_args 3 7%nat boot).
  reflexivity.
Defined.

(** ** The assembly at its edges *)

Lemma crashing_encoder_scan : ScanLaw (sim crashing_encoder).
Proof. intros l. reflexivity. Qed.

Lemma last_two {A} (l : list A) (x y : A) : last (l ++ [x; y]) = Some y.
Proof. change [x; y] with ([x] ++ [y]). now rewrite app_assoc, last_snoc. Qed.

(** X13. With the encoder installed and no file in the folder matching
    [screenshot_*.png], [maybe_build_video] returns [False] after the
    listing alone: it reads no modification time, renames nothing, runs no
    encoder, and leaves the state as it was. *)
Theorem empty_folder_builds_nothing
    (W : Type) (world : World W) (Hscan : ScanLaw W)
    (folder : string) (rate : Z) (video_name : string) (wd : Z)
    (s : state W) :
  path_which "ffmpeg" (ext s) = true ->
  frame_paths folder (fs s) = [] ->
  maybe_build_video folder rate video_name wd s
  = (Ok false, s,
     [ EvWhich "ffmpeg" true;
       EvGlob (Text.os_path_join folder "screenshot_") ".png" [];
       EvPrint MsgNoFrames ]).
Proof.
  intros Hwhich Hnone.
  assert (Hglob : globbed_in folder (fs s) = []).
  { apply Permutation_nil_r. rewrite <- Hnone.
    now apply globbed_frame_paths. }
  destruct (maybe_build_video_run Hscan folder rate video_name wd s Hwhich)
    as [[_ ->]|[Hne _]].
  - unfold assembly_head. now rewrite Hglob.
  - exfalso. apply Hne. apply Permutation_nil_r.
    rewrite <- Hglob. apply sorted_frames_perm.
Qed.

Lemma empty_folder_builds_nothing_witness :
  result_of
    (maybe_build_video "./captures" 12 "timelapse.mp4" 1280
       (State (W := sim flaky) (Sim 0 0)
          (<[ "./captures/notes.txt" := File 50 "notes" ]> ∅)))
  = Ok false.
Proof.
  exact (f_equal result_of
           (empty_folder_builds_nothing (sim flaky) _ flaky_scan
              "./captures" 12 "timelapse.mp4" 1280
              (State (Sim 0 0)
                 (<[ "./captures/notes.txt" := File 50 "notes" ]> ∅))
              eq_refl eq_refl)).
Defined.

(** X14. Nothing protects the frames from an exception of
    [subprocess.run]: when the call itself raises after the renaming, and
    has touched no path but the output, [maybe_build_video] raises the
    same exception with no rename back.  The frame that was [k]-th by
    modification time is left under the [k]-th temporary name, and its own
    name is gone. *)
Theorem encoder_exception_strands_frames
    (W : Type) (world : World W) (Hscan : ScanLaw W)
    (folder : string) (rate : Z) (video_name : string) (wd : Z)
    (s : state W) (e : exn) (files' : gmap string file) (w' : W) :
  path_which "ffmpeg" (ext s) = true ->
  sorted_frames folder (fs s) <> [] ->
  (forall k, Text.os_path_join folder video_name <> temp_name folder k) ->
  encoder_run (ffmpeg_cmd folder rate video_name wd)
    (rename_all (temp_pairs folder 0 (sorted_frames folder (fs s))) (fs s))
    (ext s)
  = (Raise e, files', w') ->
  (forall p, p <> Text.os_path_join folder video_name ->
     files' !! p
     = rename_all (temp_pairs folder 0 (sorted_frames folder (fs s))) (fs s)
       !! p) ->
  let o := maybe_build_video folder rate video_name wd s in
  result_of o = Raise e
  /\ last (trace_of o)
     = Some (EvRun (ffmpeg_cmd folder rate video_name wd) (Raise e))
  /\ (forall k f, sorted_frames folder (fs s) !! k = Some f ->
        fs (state_of o) !! temp_name folder (Z.of_nat k) = fs s !! f)
  /\ (forall f, f ∈ sorted_frames folder (fs s) ->
        f <> Text.os_path_join folder video_name ->
        fs (state_of o) !! f = None).
Proof.
  intros Hwhich Hne Hout Hrun Hkeep o. subst o.
  destruct (sorted_frames_ready Hscan folder s) as (Hnd & Hpres & Htemp).
  destruct (maybe_build_video_run Hscan folder rate video_name wd s Hwhich)
    as [[E _]|[_ (r & files1 & w1 & Hrun1 & H)]]; [contradiction|].
  rewrite Hrun in Hrun1. injection Hrun1 as <- <- <-. rewrite H.
  unfold result_of, state_of, trace_of. cbn [fst snd fs].
  set (frames := sorted_frames folder (fs s)) in *.
  set (moves := temp_pairs folder 0 frames) in *.
  assert (Hsrc : moves.*1 = frames) by apply temp_pairs_fst.
  destruct (rename_all_lookup moves (fs s)) as (F1 & F2 & _).
  { now rewrite Hsrc. }
  { apply temp_pairs_snd_NoDup; lia. }
  { rewrite Hsrc. intros x Hx (k & _ & ->)%temp_pairs_snd_elem.
    exact (Htemp _ _ Hx eq_refl). }
  { now rewrite Hsrc. }
  split; [reflexivity|]. split; [|split].
  - now rewrite !app_assoc, last_two.
  - intros k f Hk.
    rewrite Hkeep by (intros E; exact (Hout _ (eq_sym E))).
    apply F1. apply (list_elem_of_lookup_2 _ k).
    exact (temp_pairs_lookup folder frames 0 k f Hk).
  - intros f Hf Hfo. rewrite (Hkeep _ Hfo). apply F2. now rewrite Hsrc.
Qed.

Lemma encoder_exception_strands_frames_witness :
  fs (state_of (maybe_build_video "./captures" 12 "timelapse.mp4" 1280
                  (@on_shelf crashing_encoder)))
  !! "./captures/temp_000000.png"
  = Some (File 100 "first").
Proof.
  refine (eq_trans
            (proj1 (proj2 (proj2
               (encoder_exception_strands_frames (sim crashing_encoder) _
                  crashing_encoder_scan "./captures" 12 "timelapse.mp4" 1280
                  on_shelf (Exception "Exec format error")
                  (rename_all
                     (temp_pairs "./captures" 0
                        (sorted_frames "./captures" shelf)) shelf)
                  (served (Sim 0 0) 0)
                  eq_refl _ timelapse_not_temp eq_refl (fun p _ => eq_refl))))
               0%nat "./captures/screenshot_c.png" _) _).
  - vm_compute. discriminate.
  - vm_compute. reflexivity.
  - vm_compute. reflexivity.
Defined.

(** X15. With frames to encode and an encoder that returns, the result
    of [maybe_build_video] is [True] exactly when the exit status is 0.
    A non-zero status raises nothing: the last line printed then carries
    what the encoder wrote on its error stream, and otherwise the path of
    the video.  Whether the video exists is not looked at. *)
Theorem build_result_follows_exit_status
    (W : Type) (world : World W) (Hscan : ScanLaw W)
    (folder : string) (rate : Z) (video_name : string) (wd : Z)
    (s : state W) (res : Z * string) (files' : gmap string file) (w' : W) :
  path_which "ffmpeg" (ext s) = true ->
  sorted_frames folder (fs s) <> [] ->
  encoder_run (ffmpeg_cmd folder rate video_name wd)
    (rename_all (temp_pairs folder 0 (sorted_frames folder (fs s))) (fs s))
    (ext s)
  = (Ok res, files', w') ->
  let o := maybe_build_video folder rate video_name wd s in
  result_of o = Ok (res.1 =? 0)
  /\ last (trace_of o)
     = Some (EvPrint (if res.1 =? 0
                      then MsgSaved (Text.os_path_join folder video_name)
                      else MsgFfmpegFailed res.2)).
Proof.
  intros Hwhich Hne Hrun o. subst o.
  destruct (maybe_build_video_run Hscan folder rate video_name wd s Hwhich)
    as [[E _]|[_ (r & files1 & w1 & Hrun1 & H)]]; [contradiction|].
  rewrite Hrun in Hrun1. injection Hrun1 as <- <- <-.
  destruct H as (t & _ & ->).
  unfold result_of, trace_of. cbn [fst snd].
  split; [reflexivity|].
  now rewrite !app_assoc, last_snoc.
Qed.

Lemma build_result_follows_exit_status_witness :
  result_of (maybe_build_video "./captures" 12 "timelapse.mp4" 1280
               (@on_shelf failing_encoder))
  = Ok false.
Proof.
  refine (proj1 (build_result_follows_exit_status (sim failing_encoder) _
                   failing_encoder_scan "./captures" 12 "timelapse.mp4" 1280
                   on_shelf (1, "Conversion failed!")
                   (rename_all
                      (temp_pairs "./captures" 0
                         (sorted_frames "./captures" shelf)) shelf)
                   (served (Sim 0 0) 0)
                   eq_refl _ eq_refl)).
  vm_compute. discriminate.
Defined.

(** ** Frames written at the same time *)

Lemma insert_by_key_stable (t : Z) x l :
  filter (fun y : Z * string => y.1 = t) (insert_by_key x l)
  = filter (fun y : Z * string => y.1 = t) (x :: l).
Proof.
  induction l as [|y l IH]; [reflexivity|]. cbn [insert_by_key].
  destruct (x.1 <=? y.1) eqn:E; [reflexivity|]. apply Z.leb_gt in E.
  rewrite (filter_cons _ y (insert_by_key x l)), IH, !filter_cons.
  repeat case_decide; try reflexivity; lia.
Qed.

Lemma sort_by_key_stable (t : Z) l :
  filter (fun y : Z * string => y.1 = t) (sort_by_key l)
  = filter (fun y : Z * string => y.1 = t) l.
Proof.
  induction l as [|x l IH]; [reflexivity|].
  change (sort_by_key (x :: l)) with (insert_by_key x (sort_by_key l)).
  now rewrite insert_by_key_stable, !filter_cons, IH.
Qed.

Lemma filter_keyed (key : string -> Z) (t : Z) (ks : list (Z * string)) :
  Forall (fun x => x.1 = key x.2) ks ->
  filter (fun p => key p = t) ks.*2 = (filter (fun x : Z * string => x.1 = t) ks).*2.
Proof.
  induction 1 as [|[k p] ks Hk _ IH]; [reflexivity|].
  cbn [fmap list_fmap snd fst] in *. rewrite !filter_cons, IH.
  cbn [fst snd]. subst k. now repeat case_decide.
Qed.

(** X16. The sort of the frames is by modification time and nothing else:
    frames that share a modification time stay in the order the listing
    gave them, whatever their names. *)
Theorem tied_frames_keep_listing_order
    (W : Type) (world : World W) (globbed : list string) (s : state W) :
  (forall p, p ∈ globbed -> is_Some (fs s !! p)) ->
  let o := sort_by_mtime globbed s in
  is_ok (result_of o) = true
  /\ forall sorted t,
       result_of o = Ok sorted ->
       filter (fun p => mtime_in (fs s) p = t) sorted
       = filter (fun p => mtime_in (fs s) p = t) globbed.
Proof.
  intros Hp o. subst o. unfold sort_by_mtime.
  rewrite (bind_ok _ _ _ _ _ _ (mtime_keys_run globbed s Hp)).
  unfold ret, result_of. cbn [fst is_ok]. split; [reflexivity|].
  intros sorted t [= <-].
  set (keyed := (fun p => (mtime_in (fs s) p, p)) <$> globbed).
  assert (Hk : Forall (fun x : Z * string => x.1 = mtime_in (fs s) x.2) keyed).
  { apply Forall_fmap, Forall_true. reflexivity. }
  assert (Hs : Forall (fun x : Z * string => x.1 = mtime_in (fs s) x.2)
                 (sort_by_key keyed)).
  { now rewrite sort_by_key_perm. }
  rewrite (filter_keyed _ t _ Hs), sort_by_key_stable.
  rewrite <- (filter_keyed _ t _ Hk). f_equal.
  unfold keyed. rewrite <- list_fmap_compose. apply list_fmap_id.
Qed.

Lemma tied_frames_keep_listing_order_witness :
  filter (fun p => mtime_in tied_shelf p = 200)
    [ "./captures/screenshot_b.png"; "./captures/screenshot_c.png";
      "./captures/screenshot_a.png" ]
  = filter (fun p => mtime_in tied_shelf p = 200)
      [ "./captures/screenshot_c.png"; "./captures/screenshot_a.png";
        "./captures/screenshot_b.png" ].
Proof.
  refine (proj2
            (tied_frames_keep_listing_order (sim flaky) _
               [ "./captures/screenshot_c.png"; "./captures/screenshot_a.png";
                 "./captures/screenshot_b.png" ]
               (State (Sim 0 0) tied_shelf) _) _ 200 _).
  - intros p Hp. repeat (apply elem_of_cons in Hp as [->|Hp]; [now eexists|]).
    inversion Hp.
  - vm_compute. reflexivity.
Defined.

(** ** The requirement list of the package *)

Section Requirements.

Import Setup.

Lemma rstrip_idem s : rstrip (rstrip s) = rstrip s.
Proof.
  induction s as [|c s IH]; [reflexivity|]. cbn [rstrip].
  destruct (rstrip s) as [|d r] eqn:E.
  - destruct (isspace c) eqn:Hc; [reflexivity|]. cbn [rstrip]. now rewrite Hc.
  - change (rstrip (String c (String d r)))
      with (match rstrip (String d r) with
            | EmptyString =>
                if isspace c then EmptyString else String c EmptyString
            | r0 => String c r0
            end).
    now rewrite IH.
Qed.

Lemma lstrip_head s :
  lstrip s = "" \/ exists c s', lstrip s = String c s' /\ isspace c = false.
Proof.
  induction s as [|c s IH]; [now left|]. cbn [lstrip].
  destruct (isspace c) eqn:Hc; [exact IH|]. right. now exists c, s.
Qed.

Lemma rstrip_head c s :
  isspace c = false -> exists r, rstrip (String c s) = String c r.
Proof.
  intros Hc. cbn [rstrip]. rewrite Hc. destruct (rstrip s); eauto.
Qed.

Lemma strip_idem s : strip (strip s) = strip s.
Proof.
  unfold strip. destruct (lstrip_head s) as [->|(c & s' & -> & Hc)];
    [reflexivity|].
  destruct (rstrip_head c s' Hc) as [r E]. rewrite E. cbn [lstrip].
  rewrite Hc, <- E. apply rstrip_idem.
Qed.

Lemma starts_with_hash s :
  Text.starts_with "#" s = true -> exists s', s = String "#" s'.
Proof.
  unfold Text.starts_with. destruct s as [|c s]; cbn [String.prefix];
    [discriminate|].
  destruct (ascii_dec "#" c) as [<-|]; [eauto | discriminate].
Qed.

End Requirements.

(** X17. Every entry of the requirement list is the stripped text of a
    line that does not begin with [#]; it is never empty and carries no
    white space at either end. *)
Theorem requirements_are_stripped (lines : list string) (r : string) :
  r ∈ Setup.requirements lines ->
  r <> ""
  /\ Setup.strip r = r
  /\ exists line,
       line ∈ lines /\ r = Setup.strip line
       /\ Text.starts_with "#" line = false.
Proof.
  induction lines as [|line rest IH]; [inversion 1|]. cbn [Setup.requirements].
  destruct (negb (String.eqb (Setup.strip line) "")
            && negb (Text.starts_with "#" line)) eqn:E.
  - apply andb_true_iff in E as [Hne Hc].
    apply negb_true_iff in Hne, Hc. apply String.eqb_neq in Hne.
    intros [->|Hr]%elem_of_cons.
    + split; [exact Hne|]. split; [apply strip_idem|].
      exists line. split; [left | now split].
    + destruct (IH Hr) as (H1 & H2 & l & Hl & H3). split; [exact H1|].
      split; [exact H2|]. exists l. split; [now right | exact H3].
  - intros Hr. destruct (IH Hr) as (H1 & H2 & l & Hl & H3). split; [exact H1|].
    split; [exact H2|]. exists l. split; [now right | exact H3].
Qed.

Lemma requirements_are_stripped_witness :
  "pillow" <> ""
  /\ Setup.strip "pillow" = "pillow"
  /\ exists line,
       line ∈ [ "selenium>=4.0" ; "# tools" ; "" ; "  pillow  " ]
       /\ "pillow" = Setup.strip line
       /\ Text.starts_with "#" line = false.
Proof.
  apply (requirements_are_stripped
           [ "selenium>=4.0" ; "# tools" ; "" ; "  pillow  " ] "pillow").
  apply (list_elem_of_lookup_2 _ 1%nat). vm_compute. reflexivity.
Defined.

(** X18. The comment test looks at the line as read and the entry is the
    line stripped: a comment that is indented passes the test and becomes
    an entry that begins with [#]. *)
Theorem indented_comment_is_kept (line : string) (rest : list string) :
  Text.starts_with "#" line = false ->
  Text.starts_with "#" (Setup.lstrip line) = true ->
  Setup.requirements (line :: rest)
  = Setup.strip line :: Setup.requirements rest
  /\ Text.starts_with "#" (Setup.strip line) = true.
Proof.
  intros Hraw Hhash. apply starts_with_hash in Hhash as [body Hbody].
  destruct (rstrip_head "#" body eq_refl) as [r Hr].
  assert (E : Setup.strip line = String "#" r).
  { unfold Setup.strip. now rewrite Hbody. }
  cbn [Setup.requirements]. rewrite Hraw, E.
  split; [reflexivity | now destruct r].
Qed.

Lemma indented_comment_is_kept_witness :
  Setup.requirements [ "  # pinned for CI" ; "selenium" ]
  = [ "# pinned for CI" ; "selenium" ].
Proof.
  exact (proj1 (indented_comment_is_kept "  # pinned for CI" [ "selenium" ]
                  eq_refl eq_refl)).
Defined.

(** ** A browser that starts and cannot be configured *)

(** X19. [new_driver] hands the session to [main] only after the page
    load timeout is set.  When the browser has started and that call
    raises, [main] raises the same exception without ever holding the
    session: [quit] is called on nothing and the browser stays up. *)
Theorem started_browser_left_running
    (W : Type) (world : World W) (a : args) (n : Z) (d : handle)
    (s s1 : state W) (t1 : list event) (w1 w2 : W) (e : exn) :
  ensure_out_dir (out a) s = (Ok tt, s1, t1) ->
  compute_nshots a = Ok n ->
  chrome_start (width a) (height a) (ext s1) = (Ok d, w1) ->
  chrome_set_page_load_timeout d 120 w1 = (Raise e, w2) ->
  let t := t1 ++ banner a n
           ++ [ EvChrome (width a) (height a) (Ok d);
                EvSetPageLoadTimeout d 120 (Raise e) ] in
  main a s = (Raise e, State w2 (fs s1), t) /\ released t = [].
Proof.
  intros Hdir Hn Hstart Hset t. subst t.
  assert (Hdrv : new_driver (width a) (height a) s1
                 = (Raise e, State w2 (fs s1),
                    [ EvChrome (width a) (height a) (Ok d);
                      EvSetPageLoadTimeout d 120 (Raise e) ])).
  { unfold new_driver, webdriver_Chrome, set_page_load_timeout, bind, ret,
      external. rewrite Hstart. cbn [ext fs]. now rewrite Hset. }
  rewrite (main_prologue a n s s1 t1 Hdir Hn).
  rewrite (bind_raise _ _ _ _ _ _ (bind_raise _ _ _ _ _ _ Hdrv)).
  split; [reflexivity|].
  pose proof (ensure_out_dir_quiet (out a) s) as Q1. rewrite Hdir in Q1.
  apply forallb_and in Q1 as [_ L1]. unfold trace_of in L1. cbn [snd] in L1.
  unfold released. rewrite !omap_app.
  rewrite (omap_nil_of_forallb _ no_lifecycle t1) by (auto; now intros []).
  reflexivity.
Qed.

Lemma started_browser_left_running_witness :
  result_of (main demo_args (@boot no_timeout))
  = Raise (Exception "no session").
Proof.
  refine (let o1 := ensure_out_dir (out demo_args) (@boot no_timeout) in
          let c1 := chrome_start 1280 800 (ext (state_of o1)) in
          let c2 := chrome_set_page_load_timeout 7%nat 120 c1.2 in
          f_equal result_of
            (proj1 (started_browser_left_running (sim no_timeout) _ demo_args
                      3 7%nat boot (state_of o1) (trace_of o1) c1.2 c2.2
                      (Exception "no session") _ eq_refl _ _)));
    vm_compute; reflexivity.
Defined.
